(** * Smart Document Context Handler: front end and context-construction core

    A shallow embedding of the TypeScript front end (types/index.ts,
    api/client.ts, components/FileUpload.tsx, components/ChunkViewer.tsx,
    components/QueryInterface.tsx) and of the budget, tier, trimmer and
    assembler components of the context-construction core. *)

From Stdlib Require Import ZArith NArith List Bool Lia String Ascii.
From Stdlib Require Import Floats.PrimFloat.
Import ListNotations.

Open Scope Z_scope.

(** ** JavaScript values

    A JavaScript string is a sequence of UTF-16 code units. *)

Module Js.

Definition jsstring := list N.

(** String literal of the source, code unit by code unit. *)
Definition lit (s : string) : jsstring :=
  List.map N_of_ascii (list_ascii_of_string s).

Fixpoint eqb (a b : jsstring) : bool :=
  match a, b with
  | [], [] => true
  | x :: a', y :: b' => N.eqb x y && eqb a' b'
  | _, _ => false
  end.

(** ECMAScript WhiteSpace and LineTerminator code units, the ones
    [String.prototype.trim] strips. *)
Definition isWhiteSpace (c : N) : bool :=
  match c with
  | 9%N | 10%N | 11%N | 12%N | 13%N | 32%N | 160%N | 5760%N
  | 8232%N | 8233%N | 8239%N | 8287%N | 12288%N | 65279%N => true
  | _ => N.leb 8192 c && N.leb c 8202
  end.

Fixpoint trimStart (s : jsstring) : jsstring :=
  match s with
  | [] => []
  | c :: s' => if isWhiteSpace c then trimStart s' else s
  end.

Definition trimEnd (s : jsstring) : jsstring := rev (trimStart (rev s)).

(** [String.prototype.trim] *)
Definition trim (s : jsstring) : jsstring := trimEnd (trimStart s).

(** ToBoolean on a string: the empty string is the only falsy one. *)
Definition truthy (s : jsstring) : bool :=
  match s with [] => false | _ :: _ => true end.

(** [String.prototype.startsWith] *)
Fixpoint startsWith (s p : jsstring) : bool :=
  match p, s with
  | [], _ => true
  | x :: p', y :: s' => N.eqb x y && startsWith s' p'
  | _ :: _, [] => false
  end.

(** [String.prototype.endsWith] *)
Definition endsWith (s p : jsstring) : bool := startsWith (rev s) (rev p).

(** [String.prototype.toLowerCase] on the Basic Latin letters; the
    strings it is compared with are Basic Latin. *)
Definition lowerUnit (c : N) : N :=
  if N.leb 65 c && N.leb c 90 then (c + 32)%N else c.

Definition toLowerCase (s : jsstring) : jsstring := List.map lowerUnit s.

(** [String.prototype.slice(0, n)] *)
Definition slice0 (n : nat) (s : jsstring) : jsstring := firstn n s.

(** A DOM [File]: its name, its MIME type ([type]) and its size in
    bytes. *)
Record File := {
  f_name : jsstring;
  f_type : jsstring;
  f_size : Z
}.

End Js.

(** ** types/index.ts *)

Record TierInfo := {
  tier : Z;
  label : Js.jsstring;
  color : Js.jsstring;
  description : Js.jsstring
}.

Record TokenBudgetAllocations := {
  system_prompt : Z;
  conversation_history : Z;
  response_buffer : Z;
  document_content : Z
}.

Record TokenBudgetDocument := {
  original_tokens : Z;
  allocated_tokens : Z;
  max_tokens : Z;
  utilization_pct : Z;
  truncated : bool
}.

Record TokenBudget := {
  total_window : Z;
  allocations : TokenBudgetAllocations;
  document : TokenBudgetDocument
}.

Record UploadResponse := {
  up_doc_id : Js.jsstring;
  up_filename : Js.jsstring;
  up_file_size : Z;
  up_token_count : Z;
  up_tier : TierInfo;
  up_budget : TokenBudget;
  up_mime_type : option Js.jsstring;
  up_page_count : option Z;
  up_row_count : option Z;
  up_created_at : Js.jsstring
}.

Record ChunkInfo := {
  index : Z;
  tokens : Z;
  score : float
}.

Record QueryResponse := {
  doc_id : Js.jsstring;
  query : Js.jsstring;
  q_tier : Z;
  assembled_context : Js.jsstring;
  token_count : Z;
  chunks_used : list ChunkInfo;
  strategy_notes : Js.jsstring;
  budget : TokenBudget
}.

(** ** api/client.ts *)

Module Client.

Inductive JsonValue :=
| JString (s : Js.jsstring)
| JNumber (n : Z).

(** What is handed to [api.post] as data: a JSON object, field by
    field, or a multipart form. *)
Inductive Body :=
| JsonBody (fields : list (string * JsonValue))
| FormData (fields : list (string * Js.File)).

(** A call of [api.post]: the path under the [/api] base URL and the
    data. *)
Record Request := {
  path : string;
  body : Body
}.

(** A thrown value: an [Error] with its message, or anything else. *)
Inductive Thrown :=
| ErrorObject (message : Js.jsstring)
| OtherValue.

(** The awaited outcome of a call. *)
Definition Outcome (A : Type) := (Thrown + A)%type.

(** [queryDocument(docId, query, topK = 10)], by the POST it issues;
    the default applies when the argument is omitted (undefined). *)
Definition queryDocument (docId query : Js.jsstring) (topK : option Z) : Request :=
  let topK := match topK with Some k => k | None => 10 end in
  {| path := "/query/";
     body := JsonBody [("doc_id"%string, JString docId);
                       ("query"%string, JString query);
                       ("top_k"%string, JNumber topK)] |}.

(** [uploadDocument(file)], by the POST it issues: the file goes in
    the multipart field [file]. *)
Definition uploadDocument (file : Js.File) : Request :=
  {| path := "/documents/upload";
     body := FormData [("file"%string, file)] |}.

End Client.

(** ** components/QueryInterface.tsx *)

Module QueryInterface.

(** The four [useState] cells of the component. *)
Record State := {
  st_query : Js.jsstring;
  st_loading : bool;
  st_result : option QueryResponse;
  st_error : option Js.jsstring
}.

Definition initial : State :=
  {| st_query := []; st_loading := false; st_result := None; st_error := None |}.

Definition setQuery (v : Js.jsstring) (s : State) : State :=
  {| st_query := v; st_loading := st_loading s;
     st_result := st_result s; st_error := st_error s |}.

Definition setLoading (v : bool) (s : State) : State :=
  {| st_query := st_query s; st_loading := v;
     st_result := st_result s; st_error := st_error s |}.

Definition setResult (v : option QueryResponse) (s : State) : State :=
  {| st_query := st_query s; st_loading := st_loading s;
     st_result := v; st_error := st_error s |}.

Definition setError (v : option Js.jsstring) (s : State) : State :=
  {| st_query := st_query s; st_loading := st_loading s;
     st_result := st_result s; st_error := v |}.

(** [err instanceof Error ? err.message : 'Query failed'] *)
Definition errorMessage (e : Client.Thrown) : Js.jsstring :=
  match e with
  | Client.ErrorObject m => m
  | Client.OtherValue => Js.lit "Query failed"
  end.

(** [handleQuery]: the state after the handler has run to its end and
    the requests it issued, in order.  [net] is the server's answer to
    a request. *)
Definition handleQuery
  (net : Client.Request -> Client.Outcome QueryResponse)
  (doc : UploadResponse) (s : State) : State * list Client.Request :=
  if negb (Js.truthy (Js.trim (st_query s))) then (s, [])
  else
    let s1 := setLoading true s in
    let s2 := setError None s1 in
    let req := Client.queryDocument (up_doc_id doc) (st_query s) None in
    let s3 := match net req with
              | inr res => setResult (Some res) s2
              | inl err => setError (Some (errorMessage err)) s2
              end in
    (setLoading false s3, [req]).

(** [disabled={loading || !query.trim()}] of the Search button. *)
Definition searchDisabled (s : State) : bool :=
  st_loading s || negb (Js.truthy (Js.trim (st_query s))).

(** [onKeyDown]: Enter runs the handler, other keys do nothing. *)
Definition onKeyDown
  (net : Client.Request -> Client.Outcome QueryResponse)
  (doc : UploadResponse) (key : Js.jsstring) (s : State)
  : State * list Client.Request :=
  if Js.eqb key (Js.lit "Enter") then handleQuery net doc s else (s, []).

End QueryInterface.

(** ** file-selector, the reader of dropped files of react-dropzone

    Before the dropzone tests the files of a drop it reads them with
    file-selector, which gives a file that has no MIME type the one
    its table [COMMON_MIME_TYPES] lists for the extension, and leaves
    out the thumbnail caches of macOS and Windows.  The table is a
    parameter here. *)

Module FileSelector.

Definition FILES_TO_IGNORE : list Js.jsstring :=
  [Js.lit ".DS_Store"; Js.lit "Thumbs.db"].

(** [FILES_TO_IGNORE.indexOf(file.name) !== -1] *)
Definition ignored (f : Js.File) : bool :=
  existsb (Js.eqb (Js.f_name f)) FILES_TO_IGNORE.

(** [name && name.lastIndexOf('.') !== -1] *)
Definition hasExtension (name : Js.jsstring) : bool :=
  existsb (N.eqb 46) name.

Fixpoint untilDot (s : Js.jsstring) : Js.jsstring :=
  match s with
  | [] => []
  | c :: s' => if N.eqb c 46 then [] else c :: untilDot s'
  end.

(** [name.split('.').pop()]: what follows the last dot. *)
Definition lastSegment (name : Js.jsstring) : Js.jsstring :=
  rev (untilDot (rev name)).

(** [withMimeType]: a file with an extension and without a type gets
    the type the table has for its lower-cased extension, when it has
    one; any other file stays as it is. *)
Definition withMimeType (table : Js.jsstring -> option Js.jsstring) (f : Js.File)
  : Js.File :=
  if hasExtension (Js.f_name f) && negb (Js.truthy (Js.f_type f))
  then match table (Js.toLowerCase (lastSegment (Js.f_name f))) with
       | Some t =>
           if Js.truthy t
           then {| Js.f_name := Js.f_name f; Js.f_type := t; Js.f_size := Js.f_size f |}
           else f
       | None => f
       end
  else f.

(** The files of a drop as the dropzone gets them. *)
Definition fromEvent (table : Js.jsstring -> option Js.jsstring)
  (files : list Js.File) : list Js.File :=
  filter (fun f => negb (ignored f)) (List.map (withMimeType table) files).

End FileSelector.

(** ** react-dropzone, as far as FileUpload.tsx configures it

    The component hands [accept], [maxFiles], [maxSize] and [disabled]
    to [useDropzone]; the hook reads the dropped files, sorts them
    into accepted and rejected ones and calls [onDrop] with the
    accepted ones. *)

Module Dropzone.

Record Options := {
  accept : list (Js.jsstring * list Js.jsstring);
  maxFiles : Z;
  maxSize : Z;
  disabled : bool
}.

(** The accept object flattened to the accept attribute: each MIME
    type followed by its extensions. *)
Definition acceptAttr (a : list (Js.jsstring * list Js.jsstring)) : list Js.jsstring :=
  flat_map (fun e => fst e :: snd e) a.

(** The part of a MIME type before its first slash. *)
Fixpoint baseMimeType (s : Js.jsstring) : Js.jsstring :=
  match s with
  | [] => []
  | c :: s' => if N.eqb c 47 then [] else c :: baseMimeType s'
  end.

(** One entry of the accept attribute against a file: an entry that
    starts with a dot is an extension and is compared with the end of
    the lower-cased file name; an entry that ends in [/*] is compared
    with the base MIME type; any other entry is a MIME type and is
    compared with the file's lower-cased type. *)
Definition matchesType (f : Js.File) (entry : Js.jsstring) : bool :=
  let validType := Js.toLowerCase (Js.trim entry) in
  let mimeType := Js.toLowerCase (Js.f_type f) in
  if Js.startsWith validType (Js.lit ".")
  then Js.endsWith (Js.toLowerCase (Js.f_name f)) validType
  else if Js.endsWith validType (Js.lit "/*")
  then Js.eqb (baseMimeType mimeType) (baseMimeType validType)
  else Js.eqb mimeType validType.

Definition fileAccepted (f : Js.File) (attr : list Js.jsstring) : bool :=
  Js.eqb (Js.f_type f) (Js.lit "application/x-moz-file")
  || existsb (matchesType f) attr.

(** A file is too large when its size exceeds [maxSize]; [minSize] is
    0 and the size of a file is never below it. *)
Definition fileMatchSize (f : Js.File) (maxSize : Z) : bool :=
  negb (maxSize <? Js.f_size f).

(** [setFiles]: of the files read, those of an accepted type and size;
    when there are more of them than [maxFiles], all are rejected. *)
Definition setFiles (o : Options) (files : list Js.File) : list Js.File :=
  let ok := filter (fun f => fileAccepted f (acceptAttr (accept o))
                             && fileMatchSize f (maxSize o)) files in
  if (1 <=? maxFiles o) && (maxFiles o <? Z.of_nat (List.length ok)) then [] else ok.

(** The files of one drop that are handed to [onDrop]: the dropped
    files are read by file-selector and then sorted by [setFiles]. *)
Definition acceptedFiles (table : Js.jsstring -> option Js.jsstring)
  (o : Options) (files : list Js.File) : list Js.File :=
  setFiles o (FileSelector.fromEvent table files).

End Dropzone.

(** ** components/FileUpload.tsx *)

Module FileUpload.

Definition ACCEPTED_TYPES : list (Js.jsstring * list Js.jsstring) :=
  [ (Js.lit "text/plain", [Js.lit ".txt"; Js.lit ".md"]);
    (Js.lit "application/pdf", [Js.lit ".pdf"]);
    (Js.lit "application/vnd.openxmlformats-officedocument.wordprocessingml.document",
     [Js.lit ".docx"]);
    (Js.lit "text/csv", [Js.lit ".csv"]);
    (Js.lit "text/tab-separated-values", [Js.lit ".tsv"]);
    (Js.lit "application/vnd.openxmlformats-officedocument.spreadsheetml.sheet",
     [Js.lit ".xlsx"]) ].

(** The two [useState] cells of the component. *)
Record State := {
  st_uploading : bool;
  st_error : option Js.jsstring
}.

Definition initial : State := {| st_uploading := false; st_error := None |}.

(** What one run of a handler did: the requests it issued and the
    results it passed to [onUploaded], in order. *)
Record Effects := {
  requests : list Client.Request;
  uploaded : list UploadResponse
}.

Definition noEffects : Effects := {| requests := []; uploaded := [] |}.

(** [err instanceof Error ? err.message : 'Upload failed. Please try again.'] *)
Definition errorMessage (e : Client.Thrown) : Js.jsstring :=
  match e with
  | Client.ErrorObject m => m
  | Client.OtherValue => Js.lit "Upload failed. Please try again."
  end.

(** [onDrop]: the state after the callback has run to its end, and its
    effects.  [net] is the server's answer to a request. *)
Definition onDrop
  (net : Client.Request -> Client.Outcome UploadResponse)
  (acceptedFiles : list Js.File) (s : State) : State * Effects :=
  match acceptedFiles with
  | [] => (s, noEffects)
  | file :: _ =>
      let req := Client.uploadDocument file in
      match net req with
      | inr result =>
          ({| st_uploading := false; st_error := None |},
           {| requests := [req]; uploaded := [result] |})
      | inl err =>
          ({| st_uploading := false; st_error := Some (errorMessage err) |},
           {| requests := [req]; uploaded := [] |})
      end
  end.

(** The options of the [useDropzone] call. *)
Definition options (s : State) : Dropzone.Options :=
  {| Dropzone.accept := ACCEPTED_TYPES;
     Dropzone.maxFiles := 1;
     Dropzone.maxSize := 50 * 1024 * 1024;
     Dropzone.disabled := st_uploading s |}.

(** A drop of [files] on the component: nothing happens while the
    dropzone is disabled; otherwise [onDrop] receives the accepted
    files.  [table] is file-selector's table of MIME types. *)
Definition drop
  (table : Js.jsstring -> option Js.jsstring)
  (net : Client.Request -> Client.Outcome UploadResponse)
  (files : list Js.File) (s : State) : State * Effects :=
  if Dropzone.disabled (options s) then (s, noEffects)
  else onDrop net (Dropzone.acceptedFiles table (options s) files) s.

(** The extensions the component lists. *)
Definition extensions : list Js.jsstring :=
  flat_map snd ACCEPTED_TYPES.

(** The MIME types the component lists. *)
Definition mimeTypes : list Js.jsstring :=
  List.map fst ACCEPTED_TYPES.

(** The name of the file ends, letter case apart, in a listed
    extension. *)
Definition hasListedExtension (f : Js.File) : bool :=
  existsb (fun e => Js.endsWith (Js.toLowerCase (Js.f_name f)) e) extensions.

(** The MIME type of the file is, letter case apart, a listed one. *)
Definition hasListedType (f : Js.File) : bool :=
  existsb (fun m => Js.eqb (Js.toLowerCase (Js.f_type f)) m) mimeTypes.

(** The type under which Firefox hands over some dragged files, which
    the dropzone lets pass. *)
Definition isMozFile (f : Js.File) : bool :=
  Js.eqb (Js.f_type f) (Js.lit "application/x-moz-file").

(** 50 MiB in bytes. *)
Definition MAX_BYTES : Z := 52428800.

(** The test a file, as it was read, passes to be accepted: a listed
    MIME type or a listed extension, and at most 50 MiB. *)
Definition passes (f : Js.File) : bool :=
  (isMozFile f || hasListedType f || hasListedExtension f)
  && (Js.f_size f <=? MAX_BYTES).

End FileUpload.

(** ** components/ChunkViewer.tsx *)

Module ChunkViewer.

(** A piece of the text of an element. *)
Inductive TextPart :=
| Str (s : string)
| Num (n : Z)                (* {n} *)
| LocaleNum (n : Z)          (* {n.toLocaleString()} *)
| Fixed3 (x : float)         (* {x.toFixed(3)} *)
| JsStr (s : Js.jsstring).   (* {s} *)

(** A child of the row of a chunk: a [span] with its class and text,
    or the value [false], which React does not render. *)
Inductive Child :=
| Span (className : string) (text : list TextPart)
| JsFalse.

Definition indexSpan (c : ChunkInfo) : Child :=
  Span "text-gray-600 font-mono" [Str "Chunk #"; Num (index c)].

Definition tokensSpan (c : ChunkInfo) : Child :=
  Span "text-gray-400" [LocaleNum (tokens c); Str " tokens"].

Definition scoreSpan (c : ChunkInfo) : Child :=
  Span "text-indigo-500 font-medium" [Str "score: "; Fixed3 (score c)].

(** [cond && element] *)
Definition jsAnd (cond : bool) (e : Child) : Child :=
  if cond then e else JsFalse.

(** The children of the [div] of chunk [c], as the JSX lists them. *)
Definition rowChildren (c : ChunkInfo) : list Child :=
  [ indexSpan c;
    tokensSpan c;
    jsAnd (PrimFloat.ltb (score c) 1%float) (scoreSpan c) ].

(** What React puts in the DOM for a list of children. *)
Definition rendered (kids : list Child) : list Child :=
  filter (fun k => match k with JsFalse => false | Span _ _ => true end) kids.

Inductive Tab := TabChunks | TabContext.

Record Props := {
  chunks : list ChunkInfo;
  assembledContext : Js.jsstring;
  strategyNotes : Js.jsstring
}.

Record State := {
  tab : Tab;
  expanded : bool
}.

Definition initial : State := {| tab := TabChunks; expanded := false |}.

(** The panel under the tab bar. *)
Inductive Panel :=
| NoChunks (message : string)
| ChunkRows (rows : list (nat * list Child))   (* key and children of each row *)
| Context (preview : Js.jsstring) (ellipsis : bool) (button : option string).

Fixpoint mapi {A B : Type} (f : nat -> A -> B) (i : nat) (l : list A) : list B :=
  match l with
  | [] => []
  | x :: l' => f i x :: mapi f (S i) l'
  end.

(** What the component shows: the label of the first tab, the
    strategy notes when there are any, and the panel of the open
    tab. *)
Record View := {
  chunksTabLabel : list TextPart;
  notes : option Js.jsstring;
  panel : Panel
}.

Definition ChunkViewer (p : Props) (s : State) : View :=
  let contextPreview :=
    if expanded s then assembledContext p else Js.slice0 800 (assembledContext p) in
  let canExpand := (800 <? List.length (assembledContext p))%nat in
  {| chunksTabLabel :=
       [Str "Chunks Used ("; Num (Z.of_nat (List.length (chunks p))); Str ")"];
     notes := if Js.truthy (strategyNotes p) then Some (strategyNotes p) else None;
     panel :=
       match tab s with
       | TabChunks =>
           match chunks p with
           | [] => NoChunks "No chunks (full document used directly)"
           | _ :: _ =>
               ChunkRows (mapi (fun i c => (i, rendered (rowChildren c))) 0 (chunks p))
           end
       | TabContext =>
           Context contextPreview (negb (expanded s) && canExpand)
             (if canExpand
              then Some (if expanded s then "Show less" else "Show full context")%string
              else None)
       end |}.

End ChunkViewer.

(** ** The context-construction core

    The core runs behind the HTTP surface; the front end above holds
    its record types and shows its results.  Its components are
    embedded here from their specification. *)

(** A text of the core: a sequence of code points. *)
Definition Text := list N.

Definition text_lit (s : string) : Text :=
  List.map N_of_ascii (list_ascii_of_string s).

(** The configuration read from the environment (README, Environment
    Variables and Token Budget). *)
Record Config := {
  tier1_max_tokens : Z;
  tier2_max_tokens : Z;
  tier3_max_tokens : Z;
  total_context_window : Z;
  reserved_system_tokens : Z;
  reserved_history_tokens : Z;
  reserved_response_tokens : Z;
  rag_top_k : Z
}.

(** The defaults the README gives. *)
Definition default_config : Config :=
  {| tier1_max_tokens := 12000;
     tier2_max_tokens := 25000;
     tier3_max_tokens := 50000;
     total_context_window := 200000;
     reserved_system_tokens := 2000;
     reserved_history_tokens := 10000;
     reserved_response_tokens := 4000;
     rag_top_k := 10 |}.

(** *** Tier Classifier *)

Module TierClassifier.

Inductive Tier := T1 | T2 | T3 | T4.

Definition number (t : Tier) : Z :=
  match t with T1 => 1 | T2 => 2 | T3 => 3 | T4 => 4 end.

(** Modelled from the spec: the tier classifier (tier_classifier.py is
    not among the sources).  Tier = 1 if tokens <= t1, 2 if <= t2, 3 if
    <= t3, 4 otherwise. *)
Definition classify (cfg : Config) (tokens : Z) : Tier :=
  if tokens <=? tier1_max_tokens cfg then T1
  else if tokens <=? tier2_max_tokens cfg then T2
  else if tokens <=? tier3_max_tokens cfg then T3
  else T4.

End TierClassifier.

(** *** Budget Allocator *)

Module BudgetAllocator.

(** W - S - H - B *)
Definition available (cfg : Config) : Z :=
  total_context_window cfg - reserved_system_tokens cfg
  - reserved_history_tokens cfg - reserved_response_tokens cfg.

(** Modelled from the spec: the document allocation D of the data
    model, W - S - H - B clamped to >= 0. *)
Definition max_document (cfg : Config) : Z :=
  if available cfg <? 0 then 0 else available cfg.

(** Modelled from the spec: d_granted = min(d_req, W - S - H - B). *)
Definition granted (cfg : Config) (d_req : Z) : Z :=
  if d_req <=? available cfg then d_req else available cfg.

(** Rounding of the quotient a / b (0 < b) to the nearest integer, a
    tie going to the even neighbour, as Python's [round] does. *)
Definition round_div (a b : Z) : Z :=
  let q := a / b in
  let r := a mod b in
  if 2 * r <? b then q
  else if b <? 2 * r then q + 1
  else if Z.even q then q else q + 1.

(** Modelled from the spec: utilization percentage =
    round(100 * d_granted / max(d_req, 1)). *)
Definition utilization (cfg : Config) (d_req : Z) : Z :=
  round_div (100 * granted cfg d_req) (if 1 <=? d_req then d_req else 1).

(** Modelled from the spec: the budget allocator (budget_allocator.py
    is not among the sources).  The record is the [TokenBudget] of
    types/index.ts; as in the upload response of the README, whose
    34200-token document has [document_content] 34200 in a window of
    200000, [document_content] is the length granted to the document. *)
Definition allocate (cfg : Config) (d_req : Z) : TokenBudget :=
  {| total_window := total_context_window cfg;
     allocations :=
       {| system_prompt := reserved_system_tokens cfg;
          conversation_history := reserved_history_tokens cfg;
          response_buffer := reserved_response_tokens cfg;
          document_content := granted cfg d_req |};
     document :=
       {| original_tokens := d_req;
          allocated_tokens := granted cfg d_req;
          max_tokens := max_document cfg;
          utilization_pct := utilization cfg d_req;
          truncated := granted cfg d_req <? d_req |} |}.

(** The sum of the four allocations of a budget record. *)
Definition allocated_total (b : TokenBudget) : Z :=
  system_prompt (allocations b) + conversation_history (allocations b)
  + response_buffer (allocations b) + document_content (allocations b).

End BudgetAllocator.

(** *** Trimmer *)

Module Trimmer.

Definition newline : N := 10%N.
Definition space : N := 32%N.

Definition is_newline (c : N) : bool := N.eqb c newline.

(** Whitespace inside a line: space, tab, vertical tab, form feed and
    carriage return. *)
Definition is_hspace (c : N) : bool :=
  match c with
  | 9%N | 11%N | 12%N | 13%N | 32%N => true
  | _ => false
  end.

(** The pieces of a list between the elements that satisfy [sep]. *)
Fixpoint split_on {A : Type} (sep : A -> bool) (l : list A) : list (list A) :=
  match l with
  | [] => [[]]
  | x :: r =>
      if sep x then [] :: split_on sep r
      else match split_on sep r with
           | [] => [[x]]
           | g :: gs => (x :: g) :: gs
           end
  end.

(** The pieces joined again, [sep] between neighbours. *)
Fixpoint intercalate {A : Type} (sep : list A) (ls : list (list A)) : list A :=
  match ls with
  | [] => []
  | x :: r =>
      match r with
      | [] => x
      | _ :: _ => x ++ sep ++ intercalate sep r
      end
  end.

Definition split_lines (t : Text) : list Text := split_on is_newline t.

Definition unlines (ls : list Text) : Text := intercalate [newline] ls.

(** A blank line holds nothing but whitespace. *)
Definition blank (l : Text) : bool := forallb is_hspace l.

Definition nonempty {A : Type} (l : list A) : bool :=
  match l with [] => false | _ :: _ => true end.

(** Modelled from the spec: the paragraphs of a list of lines, the
    maximal runs of lines that are not blank; the blank lines between
    them are the paragraph breaks. *)
Definition paragraphs (ls : list Text) : list (list Text) :=
  filter nonempty (split_on blank ls).

(** Modelled from the spec: step (a) of the trimmer.  Every run of
    whitespace inside a line becomes one space; the line breaks stay,
    the lines being what step (b) works on.  [in_run] tells that the
    character before was whitespace. *)
Fixpoint collapse_from (in_run : bool) (l : Text) : Text :=
  match l with
  | [] => []
  | c :: r =>
      if is_hspace c
      then (if in_run then collapse_from true r else space :: collapse_from true r)
      else c :: collapse_from false r
  end.

Definition collapse (l : Text) : Text := collapse_from false l.

Fixpoint text_eqb (a b : Text) : bool :=
  match a, b with
  | [], [] => true
  | x :: a', y :: b' => N.eqb x y && text_eqb a' b'
  | _, _ => false
  end.

Fixpoint paragraph_eqb (p q : list Text) : bool :=
  match p, q with
  | [], [] => true
  | x :: p', y :: q' => text_eqb x y && paragraph_eqb p' q'
  | _, _ => false
  end.

(** Modelled from the spec: step (c) of the trimmer.  Of a run of
    equal adjacent paragraphs one is kept. *)
Fixpoint drop_adjacent_duplicates (ps : list (list Text)) : list (list Text) :=
  match ps with
  | [] => []
  | p :: r =>
      match r with
      | [] => [p]
      | q :: _ =>
          if paragraph_eqb p q then drop_adjacent_duplicates r
          else p :: drop_adjacent_duplicates r
      end
  end.

(** No two neighbours of the list are equal. *)
Fixpoint no_adjacent_duplicates (ps : list (list Text)) : Prop :=
  match ps with
  | [] => True
  | p :: r =>
      match r with
      | [] => True
      | q :: _ => p <> q /\ no_adjacent_duplicates r
      end
  end.

(** Modelled from the spec: the text of a list of paragraphs, one line
    break between the lines of a paragraph, one empty line between
    paragraphs. *)
Definition join_paragraphs (ps : list (list Text)) : Text :=
  unlines (intercalate [[]] ps).

(** A line as the trimmer leaves it: on one line, its whitespace
    collapsed and not blank. *)
Definition clean_line (l : Text) : Prop :=
  Forall (fun c => is_newline c = false) l
  /\ collapse l = l
  /\ blank l = false.

(** Paragraphs as the trimmer leaves them. *)
Definition clean (ps : list (list Text)) : Prop :=
  Forall (fun p => p <> []) ps
  /\ Forall (Forall clean_line) ps
  /\ no_adjacent_duplicates ps.

Section Trim.

(** The configured boilerplate patterns, as a test on a line of a
    document, given the lines of the document: a pattern may look at
    the line alone ("Page N of M", a line that is only a URL) or at
    the whole document (a header or footer line that stands three
    times or more at page boundaries). *)
Variable boilerplate : list Text -> Text -> bool.

(** Modelled from the spec: step (b) of the trimmer.  The lines that
    match a boilerplate pattern in the document are removed; a
    paragraph that loses all its lines is gone. *)
Definition remove_boilerplate (lines : list Text) (ps : list (list Text))
  : list (list Text) :=
  filter nonempty (List.map (filter (fun l => negb (boilerplate lines l))) ps).

(** Modelled from the spec: the trimmer (the boilerplate trimming of
    chunking_engine.py is not among the sources): (a) collapse runs of
    whitespace, paragraph breaks excluded, to single spaces; (b) remove
    the lines matching the configured boilerplate patterns; (c) drop
    duplicate adjacent paragraphs. *)
Definition trim (x : Text) : Text :=
  let lines := List.map collapse (split_lines x) in
  join_paragraphs
    (drop_adjacent_duplicates (remove_boilerplate lines (paragraphs lines))).


End Trim.

End Trimmer.

(** *** Context Assembler *)

Module ContextAssembler.

Import TierClassifier.

(** The document record, as far as the assembler reads it. *)
Record Document := {
  d_text : Text;
  d_token_count : Z;
  d_tier : Tier
}.

Record Chunk := {
  c_index : Z;
  c_tokens : Z;
  c_text : Text
}.

(** What [strategy_notes] reports; the first one reads
    "Full document injected directly." *)
Inductive Strategy :=
| FullDocument
| TrimmedDocument
| TrimmedThenRanked
| RankedChunks
| RetrievedChunks
| RankedWithoutEmbeddings.

(** The result of the assembler: the fields of [QueryResponse] it
    fills. *)
Record Assembled := {
  a_tier : Tier;
  a_context : Text;
  a_token_count : Z;
  a_chunks_used : list ChunkInfo;
  a_strategy : Strategy;
  a_budget : TokenBudget
}.

(** The separator between the chunks of an assembled context. *)
Definition separator : Text :=
  [10; 10; 45; 45; 45; 10; 10]%N.

Fixpoint number_from {A : Type} (i : Z) (l : list A) : list (Z * A) :=
  match l with
  | [] => []
  | x :: r => (i, x) :: number_from (i + 1) r
  end.

(** A chunk goes before the first chunk of the ranking whose score is
    not higher than its own. *)
Fixpoint insert_by_score (x : Chunk * float) (l : list (Chunk * float))
  : list (Chunk * float) :=
  match l with
  | [] => [x]
  | y :: r =>
      if PrimFloat.ltb (snd x) (snd y) then y :: insert_by_score x r
      else x :: l
  end.

(** Modelled from the spec: the ranking is by descending score, ties
    by ascending chunk index (the chunks come in index order). *)
Definition rank (score_of : Chunk -> float) (chunks : list Chunk)
  : list (Chunk * float) :=
  fold_right insert_by_score [] (List.map (fun c => (c, score_of c)) chunks).

(** Modelled from the spec: the greedy fill.  The chunks are taken by
    descending score; a chunk is accepted when its token count plus
    the running total is at most [D]; the fill stops when [top_k]
    chunks have been accepted or no chunk is left.  [total] is the
    running total and [n] the number of chunks accepted so far. *)
Fixpoint greedy_fill (D top_k : Z) (ranked : list (Chunk * float))
  (total n : Z) : list (Chunk * float) :=
  match ranked with
  | [] => []
  | cs :: r =>
      if top_k <=? n then []
      else if total + c_tokens (fst cs) <=? D
      then cs :: greedy_fill D top_k r (total + c_tokens (fst cs)) (n + 1)
      else greedy_fill D top_k r total n
  end.

Fixpoint insert_by_index (x : Chunk * float) (l : list (Chunk * float))
  : list (Chunk * float) :=
  match l with
  | [] => [x]
  | y :: r =>
      if c_index (fst y) <? c_index (fst x) then y :: insert_by_index x r
      else x :: l
  end.

(** The accepted chunks in reading order. *)
Definition reading_order (l : list (Chunk * float)) : list (Chunk * float) :=
  fold_right insert_by_index [] l.


Definition chunk_info (cs : Chunk * float) : ChunkInfo :=
  {| index := c_index (fst cs); tokens := c_tokens (fst cs); score := snd cs |}.

(** The sum of the token counts of the chunks of [chunks_used]. *)
Definition used_tokens (l : list ChunkInfo) : Z :=
  fold_right (fun c acc => tokens c + acc) 0 l.

Section Assembler.

(** The tokenizer: the tokens of a text. *)
Variable tokenize : Text -> list N.

(** The trimmer. *)
Variable trim : Text -> Text.

(** The chunker: the texts of the chunks of a text, in reading order. *)
Variable chunk_texts : Text -> list Text.

(** The lexical ranker: the BM25 score of a chunk of the list for the
    query. *)
Variable bm25 : list Chunk -> Text -> Chunk -> float.

(** The vector index: the cosine similarity of a chunk of the list to
    the query, or nothing when the document has no embeddings. *)
Variable similarity : list Chunk -> Text -> option (Chunk -> float).

Definition count (t : Text) : Z := Z.of_nat (List.length (tokenize t)).

(** Modelled from the spec: the document record an upload creates,
    with its exact token count and the tier derived from it. *)
Definition upload (cfg : Config) (t : Text) : Document :=
  {| d_text := t; d_token_count := count t; d_tier := classify cfg (count t) |}.

(** Modelled from the spec: the chunk list of a text, the indices
    dense from 0, each chunk with its token count. *)
Definition build_chunks (t : Text) : list Chunk :=
  List.map (fun it => {| c_index := fst it; c_tokens := count (snd it); c_text := snd it |})
    (number_from 0 (chunk_texts t)).

(** Modelled from the spec: a text emitted whole, no chunk used. *)
Definition whole (cfg : Config) (t : Tier) (s : Strategy) (x : Text) (n : Z)
  : Assembled :=
  {| a_tier := t; a_context := x; a_token_count := n; a_chunks_used := [];
     a_strategy := s; a_budget := BudgetAllocator.allocate cfg n |}.

(** Modelled from the spec: the context of a ranking.  The accepted
    chunks are assembled in ascending index, the separator between
    them; the token count is the tokenizer's count of the assembled
    context. *)
Definition from_ranking (cfg : Config) (t : Tier) (s : Strategy)
  (ranked : list (Chunk * float)) (top_k : Z) : Assembled :=
  let accepted :=
    reading_order (greedy_fill (BudgetAllocator.max_document cfg) top_k ranked 0 0) in
  let context :=
    Trimmer.intercalate separator (List.map (fun cs => c_text (fst cs)) accepted) in
  {| a_tier := t;
     a_context := context;
     a_token_count := count context;
     a_chunks_used := List.map chunk_info accepted;
     a_strategy := s;
     a_budget := BudgetAllocator.allocate cfg (count context) |}.

(** Tier 3 on a text: all chunks ranked by BM25. *)
Definition ranked_chunks (cfg : Config) (t : Tier) (s : Strategy)
  (x query : Text) (top_k : Z) : Assembled :=
  let chunks := build_chunks x in
  from_ranking cfg t s (rank (bm25 chunks query) chunks) top_k.

(** Modelled from the spec: the context assembler
    (context_assembler.py is not among the sources), tier by tier. *)
Definition assemble (cfg : Config) (doc : Document) (query : Text) (top_k : Z)
  : Assembled :=
  match d_tier doc with
  | T1 => whole cfg T1 FullDocument (d_text doc) (d_token_count doc)
  | T2 =>
      let trimmed := trim (d_text doc) in
      if count trimmed <=? tier1_max_tokens cfg
      then whole cfg T2 TrimmedDocument trimmed (count trimmed)
      else if BudgetAllocator.max_document cfg <? count trimmed
      then ranked_chunks cfg T2 TrimmedThenRanked trimmed query top_k
      else whole cfg T2 TrimmedDocument trimmed (count trimmed)
  | T3 => ranked_chunks cfg T3 RankedChunks (d_text doc) query top_k
  | T4 =>
      let chunks := build_chunks (d_text doc) in
      match similarity chunks query with
      | Some sim =>
          from_ranking cfg T4 RetrievedChunks
            (firstn (Z.to_nat (3 * top_k)) (rank sim chunks)) top_k
      | None => ranked_chunks cfg T4 RankedWithoutEmbeddings (d_text doc) query top_k
      end
  end.

End Assembler.

End ContextAssembler.

(** ** Data for the examples *)

(** A query of a tab, two spaces and a no-break space in a fresh
    component. *)
Definition blank_state : QueryInterface.State :=
  QueryInterface.setQuery [9; 32; 32; 160]%N QueryInterface.initial.

Definition some_document : UploadResponse :=
  {| up_doc_id := Js.lit "a3f2c1d0"; up_filename := Js.lit "research_paper.pdf";
     up_file_size := 142680; up_token_count := 34200;
     up_tier := {| tier := 3; label := Js.lit "Strategic Chunking";
                   color := Js.lit "#f59e0b"; description := [] |};
     up_budget :=
       {| total_window := 200000;
          allocations := {| system_prompt := 2000; conversation_history := 10000;
                            response_buffer := 4000; document_content := 34200 |};
          document := {| original_tokens := 34200; allocated_tokens := 34200;
                         max_tokens := 184000; utilization_pct := 100;
                         truncated := false |} |};
     up_mime_type := None; up_page_count := None; up_row_count := None;
     up_created_at := [] |}.

(** A plain log file whose type the browser reports as text. *)
Definition log_file : Js.File :=
  {| Js.f_name := Js.lit "notes.log"; Js.f_type := Js.lit "text/plain"; Js.f_size := 10 |}.

Definition text_file : Js.File :=
  {| Js.f_name := Js.lit "Notes.TXT"; Js.f_type := []; Js.f_size := 2048 |}.

Definition huge_pdf : Js.File :=
  {| Js.f_name := Js.lit "scan.pdf"; Js.f_type := Js.lit "application/pdf";
     Js.f_size := 52428801 |}.

(** A server that refuses every upload. *)
Definition refusing : Client.Request -> Client.Outcome UploadResponse :=
  fun _ => inl Client.OtherValue.

Definition high_score_chunk : ChunkInfo :=
  {| index := 7; tokens := 512; score := 12.5%float |}.

Definition two_chunks : list ChunkInfo :=
  [ {| index := 4; tokens := 498; score := 0.875%float |};
    high_score_chunk ].

Definition viewer_props : ChunkViewer.Props :=
  {| ChunkViewer.chunks := two_chunks; ChunkViewer.assembledContext := [];
     ChunkViewer.strategyNotes := [] |}.

(** A small instance of the core: every code point is a token, the
    chunks are the lines, the second chunk ranks first, and there are
    no embeddings. *)
Definition toy_tokenize : Text -> list N := fun t => t.

Definition toy_chunk_texts : Text -> list Text := Trimmer.split_lines.

Definition toy_bm25
  : list ContextAssembler.Chunk -> Text -> ContextAssembler.Chunk -> float :=
  fun _ _ c => if ContextAssembler.c_index c =? 1 then 2%float else 0.5%float.

Definition toy_similarity
  : list ContextAssembler.Chunk -> Text -> option (ContextAssembler.Chunk -> float) :=
  fun _ _ => None.

Definition toy_assemble :=
  ContextAssembler.assemble toy_tokenize (Trimmer.trim (fun _ _ => false))
    toy_chunk_texts toy_bm25 toy_similarity.

(** A window of 30 tokens of which 24 are left to the document. *)
Definition small_config : Config :=
  {| tier1_max_tokens := 5; tier2_max_tokens := 10; tier3_max_tokens := 20;
     total_context_window := 30; reserved_system_tokens := 2;
     reserved_history_tokens := 2; reserved_response_tokens := 2;
     rag_top_k := 10 |}.

Definition hello : Text := text_lit "Hello world. This is a test.".

Definition three_lines : Text :=
  text_lit "alpha one"
  ++ [10%N] ++ text_lit "beta two."
  ++ [10%N] ++ text_lit "gamma 3.".

(** A boilerplate pattern: a line that reads "Page N of M". *)
Definition is_digit (c : N) : bool := N.leb 48 c && N.leb c 57.

Fixpoint skip_digits (l : Text) : Text :=
  match l with
  | [] => []
  | c :: r => if is_digit c then skip_digits r else l
  end.

Fixpoint strip_prefix (p l : Text) : option Text :=
  match p, l with
  | [], _ => Some l
  | x :: p', y :: l' => if N.eqb x y then strip_prefix p' l' else None
  | _ :: _, [] => None
  end.

Definition starts_with_digit (l : Text) : bool :=
  match l with [] => false | c :: _ => is_digit c end.

Definition page_n_of_m (l : Text) : bool :=
  match strip_prefix (text_lit "Page ") l with
  | None => false
  | Some n =>
      starts_with_digit n &&
      match strip_prefix (text_lit " of ") (skip_digits n) with
      | None => false
      | Some m =>
          starts_with_digit m &&
          match skip_digits m with [] => true | _ :: _ => false end
      end
  end.

(** A page with a footer, twice, with stray blanks and tabs. *)
Definition two_pages : Text :=
  text_lit "Quarterly   report"
  ++ [10%N] ++ [9%N] ++ text_lit "of the  board"
  ++ [10%N; 10%N; 10%N] ++ text_lit "Page 1 of 12"
  ++ [10%N; 10%N] ++ text_lit "Quarterly report"
  ++ [10%N] ++ text_lit " of the board"
  ++ [10%N; 32%N; 10%N] ++ text_lit "Page 2 of 12"
  ++ [10%N] ++ text_lit "Figures follow."
  ++ [10%N].

(** ** components/QueryInterface.tsx, what it shows *)

Module QueryView.

(** A piece of rendered text. *)
Inductive Piece :=
| Str (s : string)
| Num (n : Z)               (* a number as React prints it *)
| KiloBytes (bytes : Z)     (* {(bytes / 1024).toFixed(1)} *)
| JsStr (s : Js.jsstring).

(** The value of a JSX child expression. *)
Inductive Value :=
| Undefined
| Number (n : Z)
| Text (t : list Piece).

(** [n && ` · ${n} unit`] for an optional number [n]: an absent number
    and 0 are falsy and are the value of the expression themselves. *)
Definition countLabel (n : option Z) (unit : string) : Value :=
  match n with
  | None => Undefined
  | Some 0 => Number 0
  | Some k => Text [Str " · "%string; Num k; Str unit]
  end.

(** What React puts in the DOM for a child value: nothing for
    [undefined], the digits for a number, the text for a string. *)
Definition renderValue (v : Value) : list Piece :=
  match v with
  | Undefined => []
  | Number n => [Num n]
  | Text t => t
  end.

(** The line under the file name. *)
Definition summary (doc : UploadResponse) : list Piece :=
  [KiloBytes (up_file_size doc); Str " KB"%string]
  ++ renderValue (countLabel (up_page_count doc) " pages"%string)
  ++ renderValue (countLabel (up_row_count doc) " rows"%string).




End QueryView.

(** ** components/TokenBudgetChart.tsx *)

Module TokenBudgetChart.

Definition COLORS : list string :=
  ["#6366f1"; "#22c55e"; "#f59e0b"; "#ef4444"]%string.

Definition LABELS : list string :=
  ["Document"; "System Prompt"; "History"; "Response Buffer"]%string.

(** A slice of the pie; an array read past its end gives
    [undefined]. *)
Record Slice := {
  name : option string;
  value : Z
}.

Definition data (b : TokenBudget) : list Slice :=
  [ {| name := nth_error LABELS 0; value := document_content (allocations b) |};
    {| name := nth_error LABELS 1; value := system_prompt (allocations b) |};
    {| name := nth_error LABELS 2; value := conversation_history (allocations b) |};
    {| name := nth_error LABELS 3; value := response_buffer (allocations b) |} ].

(** [data.map((_, i) => <Cell key={i} fill={COLORS[i]} />)] *)
Definition cells (b : TokenBudget) : list (nat * option string) :=
  ChunkViewer.mapi (fun i _ => (i, nth_error COLORS i)) 0 (data b).

Record View := {
  titleTotal : Z;                  (* {budget.total_window.toLocaleString()} *)
  slices : list Slice;
  fills : list (nat * option string);
  utilization : Z;                 (* {budget.document.utilization_pct}% *)
  truncationWarning : bool         (* {budget.document.truncated && ...} *)
}.

Definition TokenBudgetChart (b : TokenBudget) : View :=
  {| titleTotal := total_window b;
     slices := data b;
     fills := cells b;
     utilization := utilization_pct (document b);
     truncationWarning := truncated (document b) |}.

(** The total the pie is drawn from. *)
Definition pieTotal (b : TokenBudget) : Z :=
  fold_right (fun s acc => value s + acc) 0 (data b).

End TokenBudgetChart.

(** ** components/TierBadge.tsx *)

Module TierBadge.

Definition TIER_BG : list (Z * string) :=
  [ (1, "bg-green-100 text-green-800 border-green-300");
    (2, "bg-blue-100 text-blue-800 border-blue-300");
    (3, "bg-amber-100 text-amber-800 border-amber-300");
    (4, "bg-red-100 text-red-800 border-red-300") ]%string.

(** [TIER_BG[k]]: [undefined] for a key the record does not have. *)
Fixpoint lookup (k : Z) (m : list (Z * string)) : option string :=
  match m with
  | [] => None
  | (k', v) :: m' => if k =? k' then Some v else lookup k m'
  end.

Definition baseClass : string :=
  "inline-flex flex-col gap-1 px-4 py-3 rounded-xl border-2 font-semibold "%string.

(** The class of the badge; in a template literal [undefined] prints
    as the word. *)
Definition className (t : TierInfo) : string :=
  (baseClass ++
   match lookup (tier t) TIER_BG with
   | Some c => c
   | None => "undefined"
   end)%string.

End TierBadge.

(** ** tailwind.config.js *)

Module Tailwind.

Definition colors : list (string * string) :=
  [ ("tier1", "#22c55e"); ("tier2", "#3b82f6");
    ("tier3", "#f59e0b"); ("tier4", "#ef4444") ]%string.

End Tailwind.

(** ** App.tsx *)

Module App.

Record LegendEntry := {
  l_tier : Z;
  l_label : string;
  l_color : string
}.

(** The tier legend, without the texts of the ranges. *)
Definition legend : list LegendEntry :=
  [ {| l_tier := 1; l_label := "Direct Injection"; l_color := "#22c55e" |};
    {| l_tier := 2; l_label := "Smart Trimming"; l_color := "#3b82f6" |};
    {| l_tier := 3; l_label := "Strategic Chunking"; l_color := "#f59e0b" |};
    {| l_tier := 4; l_label := "RAG Retrieval"; l_color := "#ef4444" |} ]%string.

End App.

(** ** More data for the examples *)

Definition long_context : Js.jsstring := repeat 97%N 801.

Definition context_state : ChunkViewer.State :=
  {| ChunkViewer.tab := ChunkViewer.TabContext; ChunkViewer.expanded := false |}.

Definition long_props : ChunkViewer.Props :=
  {| ChunkViewer.chunks := []; ChunkViewer.assembledContext := long_context;
     ChunkViewer.strategyNotes := [] |}.

Definition typed_state : QueryInterface.State :=
  QueryInterface.setQuery (Js.lit " main findings ") QueryInterface.initial.

Definition busy_state : QueryInterface.State :=
  QueryInterface.setLoading true typed_state.

Definition some_response : QueryResponse :=
  {| doc_id := Js.lit "a3f2c1d0"; query := Js.lit " main findings ";
     q_tier := 3; assembled_context := Js.lit "..."; token_count := 1010;
     chunks_used := two_chunks; strategy_notes := [];
     budget := up_budget some_document |}.

Definition empty_csv : UploadResponse :=
  {| up_doc_id := Js.lit "b1"; up_filename := Js.lit "empty.csv";
     up_file_size := 12; up_token_count := 3;
     up_tier := up_tier some_document; up_budget := up_budget some_document;
     up_mime_type := None; up_page_count := None; up_row_count := Some 0;
     up_created_at := [] |}.

(** Some entries of file-selector's [COMMON_MIME_TYPES]. *)
Definition some_mime_types (ext : Js.jsstring) : option Js.jsstring :=
  if Js.eqb ext (Js.lit "txt") then Some (Js.lit "text/plain")
  else if Js.eqb ext (Js.lit "log") then Some (Js.lit "text/plain")
  else if Js.eqb ext (Js.lit "md") then Some (Js.lit "text/markdown")
  else if Js.eqb ext (Js.lit "pdf") then Some (Js.lit "application/pdf")
  else if Js.eqb ext (Js.lit "csv") then Some (Js.lit "text/csv")
  else None.

(** A log file for which the browser reports no type. *)
Definition untyped_log : Js.File :=
  {| Js.f_name := Js.lit "notes.log"; Js.f_type := []; Js.f_size := 10 |}.

(** A thumbnail cache of macOS, reported as a PDF. *)
Definition ds_store : Js.File :=
  {| Js.f_name := Js.lit ".DS_Store"; Js.f_type := Js.lit "application/pdf";
     Js.f_size := 6148 |}.

(** A page marker of the loader, "[Page K]". *)
Definition is_page_marker (l : Text) : bool :=
  match strip_prefix (text_lit "[Page ") l with
  | None => false
  | Some n =>
      starts_with_digit n &&
      match skip_digits n with
      | [c] => N.eqb c 93
      | _ => false
      end
  end.

(** The lines at the page boundaries: the line right after a page
    marker and the line right before one. *)
Fixpoint boundary_lines (ls : list Text) : list Text :=
  match ls with
  | [] => []
  | a :: rest =>
      match rest with
      | [] => []
      | b :: _ =>
          (if is_page_marker a && negb (is_page_marker b) then [b] else [])
          ++ (if is_page_marker b && negb (is_page_marker a) then [a] else [])
          ++ boundary_lines rest
      end
  end.

(** Modelled from the spec: a boilerplate pattern that looks at the
    document, a header or footer line occurring three times or more at
    page boundaries; blank lines do not count as neighbours of a
    marker. *)
Definition repeated_at_page_boundaries (lines : list Text) (l : Text) : bool :=
  negb (is_page_marker l)
  && (3 <=? List.length
              (filter (Trimmer.text_eqb l)
                 (boundary_lines (filter (fun x => negb (Trimmer.blank x)) lines))))%nat.

(** Modelled from the spec: the configured patterns "Page N of M" and
    the repeated header and footer lines. *)
Definition page_patterns (lines : list Text) (l : Text) : bool :=
  page_n_of_m l || repeated_at_page_boundaries lines l.



(** Two lines of 12 code points each. *)
Definition two_short_lines : Text :=
  text_lit "aaaaaaaaaaaa" ++ [10%N] ++ text_lit "bbbbbbbbbbbb".

(** * Properties *)

(** ** api/client.ts *)

(** C8: a call [queryDocument(docId, query)] without [topK] posts to
    [/query/] the body [{doc_id: docId, query: query, top_k: 10}]. *)
Theorem queryDocument_default_top_k :
  forall docId query : Js.jsstring,
    Client.queryDocument docId query None =
    {| Client.path := "/query/";
       Client.body :=
         Client.JsonBody [("doc_id"%string, Client.JString docId);
                          ("query"%string, Client.JString query);
                          ("top_k"%string, Client.JNumber 10)] |}.
Proof. intros docId query. reflexivity. Qed.

(** A [topK] that is passed is sent as it is. *)
Lemma queryDocument_given_top_k :
  forall docId query k,
    Client.body (Client.queryDocument docId query (Some k)) =
    Client.JsonBody [("doc_id"%string, Client.JString docId);
                     ("query"%string, Client.JString query);
                     ("top_k"%string, Client.JNumber k)].
Proof. reflexivity. Qed.

(** ** components/QueryInterface.tsx *)

Lemma truthy_false_iff : forall s, Js.truthy s = false <-> s = [].
Proof.
  intros [|c s]; simpl; split; intro H; try reflexivity; discriminate.
Qed.

(** C10: when the trimmed query is empty, [handleQuery] issues no
    request and leaves the whole state, the result and the error
    included, as it was; the Search button is disabled, and Enter does
    nothing either. *)
Theorem handleQuery_blank_query :
  forall (net : Client.Request -> Client.Outcome QueryResponse)
         (doc : UploadResponse) (s : QueryInterface.State),
    Js.trim (QueryInterface.st_query s) = [] ->
    QueryInterface.handleQuery net doc s = (s, [])
    /\ QueryInterface.st_result (fst (QueryInterface.handleQuery net doc s))
       = QueryInterface.st_result s
    /\ QueryInterface.st_error (fst (QueryInterface.handleQuery net doc s))
       = QueryInterface.st_error s
    /\ QueryInterface.searchDisabled s = true
    /\ QueryInterface.onKeyDown net doc (Js.lit "Enter") s = (s, []).
Proof.
  intros net doc s Hblank.
  assert (Hq : QueryInterface.handleQuery net doc s = (s, [])).
  { unfold QueryInterface.handleQuery. rewrite Hblank. reflexivity. }
  repeat split.
  - exact Hq.
  - rewrite Hq. reflexivity.
  - rewrite Hq. reflexivity.
  - unfold QueryInterface.searchDisabled. rewrite Hblank. simpl.
    apply orb_true_r.
  - unfold QueryInterface.onKeyDown.
    destruct (Js.eqb _ _); [exact Hq | reflexivity].
Qed.

Lemma handleQuery_blank_query_witness :
  QueryInterface.handleQuery (fun _ => inl Client.OtherValue) some_document blank_state
  = (blank_state, [])
  /\ QueryInterface.searchDisabled blank_state = true.
Proof.
  pose proof (handleQuery_blank_query (fun _ => inl Client.OtherValue)
                some_document blank_state eq_refl) as H.
  split; [exact (proj1 H) | exact (proj1 (proj2 (proj2 (proj2 H))))].
Defined.

(** With a query that is not blank the handler issues exactly one
    request, the one of [queryDocument] without [topK], and ends with
    [loading] false. *)
Lemma handleQuery_issues_request :
  forall net doc s,
    Js.trim (QueryInterface.st_query s) <> [] ->
    snd (QueryInterface.handleQuery net doc s)
    = [Client.queryDocument (up_doc_id doc) (QueryInterface.st_query s) None]
    /\ QueryInterface.st_loading (fst (QueryInterface.handleQuery net doc s)) = false.
Proof.
  intros net doc s Hq. unfold QueryInterface.handleQuery.
  destruct (Js.trim (QueryInterface.st_query s)) as [|c t] eqn:E.
  - contradiction.
  - simpl. split; reflexivity.
Qed.

(** ** components/ChunkViewer.tsx *)

Lemma nth_error_mapi :
  forall (A B : Type) (f : nat -> A -> B) (l : list A) (k i : nat) (x : A),
    nth_error l i = Some x ->
    nth_error (ChunkViewer.mapi f k l) i = Some (f (k + i)%nat x).
Proof.
  intros A B f l. induction l as [|a l IH]; intros k i x H.
  - destruct i; discriminate.
  - destruct i as [|i]; simpl in *.
    + injection H as ->. now rewrite Nat.add_0_r.
    + rewrite (IH (S k) i x H). now rewrite Nat.add_succ_r.
Qed.

(** The children React shows for a chunk: the score label is the
    third one when the score is below 1 and is absent otherwise. *)
Lemma rendered_rowChildren :
  forall c,
    ChunkViewer.rendered (ChunkViewer.rowChildren c) =
    if PrimFloat.ltb (score c) 1%float
    then [ChunkViewer.Span "text-gray-600 font-mono"
            [ChunkViewer.Str "Chunk #"; ChunkViewer.Num (index c)];
          ChunkViewer.Span "text-gray-400"
            [ChunkViewer.LocaleNum (tokens c); ChunkViewer.Str " tokens"];
          ChunkViewer.Span "text-indigo-500 font-medium"
            [ChunkViewer.Str "score: "; ChunkViewer.Fixed3 (score c)]]
    else [ChunkViewer.Span "text-gray-600 font-mono"
            [ChunkViewer.Str "Chunk #"; ChunkViewer.Num (index c)];
          ChunkViewer.Span "text-gray-400"
            [ChunkViewer.LocaleNum (tokens c); ChunkViewer.Str " tokens"]].
Proof.
  intro c. unfold ChunkViewer.rowChildren, ChunkViewer.rendered.
  destruct (PrimFloat.ltb (score c) 1%float); reflexivity.
Qed.

(** C9: in the chunk list of the viewer (the tab it opens with), the
    row of every chunk of [chunks_used] is, in this order, the span
    "Chunk #" with the chunk index, the span with the token count and
    " tokens", and, if and only if the score is below 1, the span
    "score: " with the score to three decimals.  With a score that is
    not below 1 (1 or more) the row is the index and the token count
    alone, and no span of the row starts with "score: ". *)
Theorem chunk_row_score_label :
  forall (p : ChunkViewer.Props) (s : ChunkViewer.State) (i : nat) (c : ChunkInfo),
    ChunkViewer.tab s = ChunkViewer.TabChunks ->
    nth_error (ChunkViewer.chunks p) i = Some c ->
    exists rows kids,
      ChunkViewer.panel (ChunkViewer.ChunkViewer p s) = ChunkViewer.ChunkRows rows
      /\ nth_error rows i = Some (i, kids)
      /\ firstn 2 kids
         = [ChunkViewer.Span "text-gray-600 font-mono"
              [ChunkViewer.Str "Chunk #"; ChunkViewer.Num (index c)];
            ChunkViewer.Span "text-gray-400"
              [ChunkViewer.LocaleNum (tokens c); ChunkViewer.Str " tokens"]]
      /\ (PrimFloat.ltb (score c) 1%float = true ->
          skipn 2 kids
          = [ChunkViewer.Span "text-indigo-500 font-medium"
               [ChunkViewer.Str "score: "; ChunkViewer.Fixed3 (score c)]])
      /\ (PrimFloat.ltb (score c) 1%float = false -> skipn 2 kids = [])
      /\ ((exists className text,
             In (ChunkViewer.Span className (ChunkViewer.Str "score: " :: text)) kids)
          <-> PrimFloat.ltb (score c) 1%float = true).
Proof.
  intros p s i c Htab Hnth.
  exists (ChunkViewer.mapi
            (fun i c => (i, ChunkViewer.rendered (ChunkViewer.rowChildren c)))
            0 (ChunkViewer.chunks p)).
  exists (ChunkViewer.rendered (ChunkViewer.rowChildren c)).
  split.
  { unfold ChunkViewer.ChunkViewer. cbn [ChunkViewer.panel]. rewrite Htab.
    destruct (ChunkViewer.chunks p) as [|c0 cs] eqn:E.
    - destruct i; discriminate.
    - reflexivity. }
  split.
  { exact (nth_error_mapi _ _ _ _ 0%nat i c Hnth). }
  rewrite rendered_rowChildren.
  destruct (PrimFloat.ltb (score c) 1%float) eqn:Hlt.
  - split; [reflexivity|]. split; [reflexivity|]. split; [discriminate|].
    split; [reflexivity|]. intros _.
    exists "text-indigo-500 font-medium"%string, [ChunkViewer.Fixed3 (score c)].
    right. right. left. reflexivity.
  - split; [reflexivity|]. split; [discriminate|]. split; [reflexivity|].
    split; [|discriminate].
    intros (cls & text & [H | [H | []]]); discriminate H.
Qed.

Lemma chunk_row_score_label_witness :
  exists rows kids,
    ChunkViewer.panel (ChunkViewer.ChunkViewer viewer_props ChunkViewer.initial)
    = ChunkViewer.ChunkRows rows
    /\ nth_error rows 1 = Some (1%nat, kids)
    /\ firstn 2 kids
       = [ChunkViewer.Span "text-gray-600 font-mono"
            [ChunkViewer.Str "Chunk #"; ChunkViewer.Num 7];
          ChunkViewer.Span "text-gray-400"
            [ChunkViewer.LocaleNum 512; ChunkViewer.Str " tokens"]]
    /\ (PrimFloat.ltb 12.5%float 1%float = true ->
        skipn 2 kids
        = [ChunkViewer.Span "text-indigo-500 font-medium"
             [ChunkViewer.Str "score: "; ChunkViewer.Fixed3 12.5%float]])
    /\ (PrimFloat.ltb 12.5%float 1%float = false -> skipn 2 kids = [])
    /\ ((exists className text,
           In (ChunkViewer.Span className (ChunkViewer.Str "score: " :: text)) kids)
        <-> PrimFloat.ltb 12.5%float 1%float = true).
Proof.
  exact (chunk_row_score_label viewer_props ChunkViewer.initial 1 high_score_chunk
           eq_refl eq_refl).
Defined.

(** The second of the two example chunks, whose score is 12.5, is
    shown without a score. *)
Example high_score_row :
  ChunkViewer.panel (ChunkViewer.ChunkViewer viewer_props ChunkViewer.initial) =
  ChunkViewer.ChunkRows
    [ (0%nat, [ChunkViewer.Span "text-gray-600 font-mono"
                 [ChunkViewer.Str "Chunk #"; ChunkViewer.Num 4];
               ChunkViewer.Span "text-gray-400"
                 [ChunkViewer.LocaleNum 498; ChunkViewer.Str " tokens"];
               ChunkViewer.Span "text-indigo-500 font-medium"
                 [ChunkViewer.Str "score: "; ChunkViewer.Fixed3 0.875%float]]);
      (1%nat, [ChunkViewer.Span "text-gray-600 font-mono"
                 [ChunkViewer.Str "Chunk #"; ChunkViewer.Num 7];
               ChunkViewer.Span "text-gray-400"
                 [ChunkViewer.LocaleNum 512; ChunkViewer.Str " tokens"]]) ].
Proof. vm_compute. reflexivity. Qed.

(** ** components/FileUpload.tsx *)

(** The seven extensions and the six MIME types of [ACCEPTED_TYPES]. *)
Lemma extensions_listed :
  FileUpload.extensions =
  [Js.lit ".txt"; Js.lit ".md"; Js.lit ".pdf"; Js.lit ".docx";
   Js.lit ".csv"; Js.lit ".tsv"; Js.lit ".xlsx"].
Proof. reflexivity. Qed.

Lemma max_size_is_50_MiB :
  forall s, Dropzone.maxSize (FileUpload.options s) = FileUpload.MAX_BYTES.
Proof. reflexivity. Qed.

(** The type test of the dropzone under the component's accept table:
    a listed MIME type or a listed extension lets a file pass. *)
Lemma fileAccepted_table :
  forall f,
    Dropzone.fileAccepted f (Dropzone.acceptAttr FileUpload.ACCEPTED_TYPES) =
    FileUpload.isMozFile f || FileUpload.hasListedType f
    || FileUpload.hasListedExtension f.
Proof.
  intro f.
  unfold Dropzone.fileAccepted, FileUpload.isMozFile, FileUpload.hasListedType,
    FileUpload.hasListedExtension.
  rewrite <- orb_assoc. f_equal.
  change (Dropzone.acceptAttr FileUpload.ACCEPTED_TYPES) with
    [Js.lit "text/plain"; Js.lit ".txt"; Js.lit ".md";
     Js.lit "application/pdf"; Js.lit ".pdf";
     Js.lit "application/vnd.openxmlformats-officedocument.wordprocessingml.document";
     Js.lit ".docx";
     Js.lit "text/csv"; Js.lit ".csv";
     Js.lit "text/tab-separated-values"; Js.lit ".tsv";
     Js.lit "application/vnd.openxmlformats-officedocument.spreadsheetml.sheet";
     Js.lit ".xlsx"].
  change FileUpload.mimeTypes with
    [Js.lit "text/plain"; Js.lit "application/pdf";
     Js.lit "application/vnd.openxmlformats-officedocument.wordprocessingml.document";
     Js.lit "text/csv"; Js.lit "text/tab-separated-values";
     Js.lit "application/vnd.openxmlformats-officedocument.spreadsheetml.sheet"].
  rewrite extensions_listed.
  cbn [existsb].
  set (n := Js.toLowerCase (Js.f_name f)).
  set (t := Js.toLowerCase (Js.f_type f)).
  change (Dropzone.matchesType f (Js.lit "text/plain"))
    with (Js.eqb t (Js.lit "text/plain")).
  change (Dropzone.matchesType f (Js.lit "application/pdf"))
    with (Js.eqb t (Js.lit "application/pdf")).
  change (Dropzone.matchesType f
            (Js.lit "application/vnd.openxmlformats-officedocument.wordprocessingml.document"))
    with (Js.eqb t
            (Js.lit "application/vnd.openxmlformats-officedocument.wordprocessingml.document")).
  change (Dropzone.matchesType f (Js.lit "text/csv"))
    with (Js.eqb t (Js.lit "text/csv")).
  change (Dropzone.matchesType f (Js.lit "text/tab-separated-values"))
    with (Js.eqb t (Js.lit "text/tab-separated-values")).
  change (Dropzone.matchesType f
            (Js.lit "application/vnd.openxmlformats-officedocument.spreadsheetml.sheet"))
    with (Js.eqb t
            (Js.lit "application/vnd.openxmlformats-officedocument.spreadsheetml.sheet")).
  change (Dropzone.matchesType f (Js.lit ".txt")) with (Js.endsWith n (Js.lit ".txt")).
  change (Dropzone.matchesType f (Js.lit ".md")) with (Js.endsWith n (Js.lit ".md")).
  change (Dropzone.matchesType f (Js.lit ".pdf")) with (Js.endsWith n (Js.lit ".pdf")).
  change (Dropzone.matchesType f (Js.lit ".docx")) with (Js.endsWith n (Js.lit ".docx")).
  change (Dropzone.matchesType f (Js.lit ".csv")) with (Js.endsWith n (Js.lit ".csv")).
  change (Dropzone.matchesType f (Js.lit ".tsv")) with (Js.endsWith n (Js.lit ".tsv")).
  change (Dropzone.matchesType f (Js.lit ".xlsx")) with (Js.endsWith n (Js.lit ".xlsx")).
  repeat match goal with
         | |- context [Js.eqb t ?x] =>
             let b := fresh "b" in generalize (Js.eqb t x); intro b
         | |- context [Js.endsWith n ?x] =>
             let b := fresh "b" in generalize (Js.endsWith n x); intro b
         end.
  repeat match goal with b : bool |- _ => destruct b; try reflexivity end.
Qed.

Lemma accepted_test_is_passes :
  forall s f,
    Dropzone.fileAccepted f (Dropzone.acceptAttr (Dropzone.accept (FileUpload.options s)))
    && Dropzone.fileMatchSize f (Dropzone.maxSize (FileUpload.options s))
    = FileUpload.passes f.
Proof.
  intros s f. unfold FileUpload.passes.
  change (Dropzone.accept (FileUpload.options s)) with FileUpload.ACCEPTED_TYPES.
  rewrite fileAccepted_table. f_equal.
  unfold Dropzone.fileMatchSize. rewrite max_size_is_50_MiB.
  symmetry. apply Z.leb_antisym.
Qed.

Lemma setFiles_eq :
  forall s files,
    Dropzone.setFiles (FileUpload.options s) files =
    let ok := filter FileUpload.passes files in
    if (1 <? Z.of_nat (List.length ok)) then [] else ok.
Proof.
  intros s files. unfold Dropzone.setFiles.
  rewrite (filter_ext _ FileUpload.passes (accepted_test_is_passes s)).
  reflexivity.
Qed.

Lemma setFiles_cases :
  forall s files,
    Dropzone.setFiles (FileUpload.options s) files = []
    \/ exists f, Dropzone.setFiles (FileUpload.options s) files = [f]
                 /\ In f files /\ FileUpload.passes f = true.
Proof.
  intros s files. rewrite setFiles_eq. cbv zeta.
  destruct (filter FileUpload.passes files) as [|f [|g r]] eqn:E.
  - left. reflexivity.
  - right. exists f. split; [reflexivity|].
    assert (Hin : In f (filter FileUpload.passes files)) by (rewrite E; now left).
    apply filter_In in Hin. exact Hin.
  - left. cbn [List.length].
    destruct (1 <? Z.of_nat (S (S (List.length r)))) eqn:L; [reflexivity|].
    apply Z.ltb_ge in L. lia.
Qed.

(** A file that was read is the dropped file with its type filled in,
    and a dropped file that is not ignored. *)
Lemma fromEvent_In :
  forall table files g,
    In g (FileSelector.fromEvent table files) <->
    exists f, In f files /\ FileSelector.ignored f = false
              /\ g = FileSelector.withMimeType table f.
Proof.
  intros table files g. unfold FileSelector.fromEvent.
  rewrite filter_In, in_map_iff.
  assert (Hname : forall f, FileSelector.ignored (FileSelector.withMimeType table f)
                            = FileSelector.ignored f).
  { intro f. unfold FileSelector.withMimeType, FileSelector.ignored.
    destruct (_ && _); [|reflexivity].
    destruct (table _) as [t|]; [|reflexivity].
    destruct (Js.truthy t); reflexivity. }
  split.
  - intros [(f & <- & Hin) Hig]. exists f. rewrite Hname in Hig.
    apply negb_true_iff in Hig. auto.
  - intros (f & Hin & Hig & ->). split; [now exists f|].
    rewrite Hname, Hig. reflexivity.
Qed.

Lemma fromEvent_single :
  forall table f,
    FileSelector.fromEvent table [f] =
    if FileSelector.ignored f then [] else [FileSelector.withMimeType table f].
Proof.
  intros table f. unfold FileSelector.fromEvent. cbn [List.map filter].
  assert (Hname : FileSelector.ignored (FileSelector.withMimeType table f)
                  = FileSelector.ignored f).
  { unfold FileSelector.withMimeType, FileSelector.ignored.
    destruct (_ && _); [|reflexivity].
    destruct (table _) as [t|]; [|reflexivity].
    destruct (Js.truthy t); reflexivity. }
  rewrite Hname. destruct (FileSelector.ignored f); reflexivity.
Qed.

Lemma acceptedFiles_cases :
  forall table s files,
    Dropzone.acceptedFiles table (FileUpload.options s) files = []
    \/ exists f,
         Dropzone.acceptedFiles table (FileUpload.options s) files
         = [FileSelector.withMimeType table f]
         /\ In f files /\ FileSelector.ignored f = false
         /\ FileUpload.passes (FileSelector.withMimeType table f) = true.
Proof.
  intros table s files. unfold Dropzone.acceptedFiles.
  destruct (setFiles_cases s (FileSelector.fromEvent table files))
    as [E | (g & E & Hin & Hp)].
  - now left.
  - right. apply fromEvent_In in Hin. destruct Hin as (f & Hin & Hig & ->).
    exists f. auto.
Qed.

Lemma acceptedFiles_single :
  forall table s f,
    Dropzone.acceptedFiles table (FileUpload.options s) [f] =
    if negb (FileSelector.ignored f)
       && FileUpload.passes (FileSelector.withMimeType table f)
    then [FileSelector.withMimeType table f] else [].
Proof.
  intros table s f. unfold Dropzone.acceptedFiles.
  rewrite fromEvent_single, setFiles_eq.
  destruct (FileSelector.ignored f); [reflexivity|]. cbn [filter negb andb].
  destruct (FileUpload.passes _); reflexivity.
Qed.

Lemma uploadDocument_injective :
  forall f g, Client.uploadDocument f = Client.uploadDocument g -> f = g.
Proof. intros f g H. now injection H. Qed.

(** What a drop sends: nothing, or one upload of the one accepted
    file. *)
Lemma drop_requests :
  forall table net s files,
    FileUpload.requests (snd (FileUpload.drop table net files s)) = []
    \/ exists f,
         FileUpload.requests (snd (FileUpload.drop table net files s))
         = [Client.uploadDocument (FileSelector.withMimeType table f)]
         /\ In f files /\ FileSelector.ignored f = false
         /\ FileUpload.passes (FileSelector.withMimeType table f) = true.
Proof.
  intros table net s files. unfold FileUpload.drop.
  destruct (Dropzone.disabled (FileUpload.options s)); [now left|].
  destruct (acceptedFiles_cases table s files) as [E | (f & E & Hin & Hig & Hp)];
    rewrite E.
  - now left.
  - right. exists f. unfold FileUpload.onDrop.
    destruct (net _); simpl; auto.
Qed.

(** C7, as amended: the dropzone reads a dropped file with
    file-selector, which fills in the type of a file that has none
    from its extension and leaves out .DS_Store and Thumbs.db.  A file
    of a drop is accepted only if, as read, it is at most 50 MiB and
    its MIME type is a listed one (or Firefox's
    application/x-moz-file) or its name ends in one of the seven
    listed extensions; a file dropped alone is accepted exactly in
    that case; at most one file of a drop is accepted, a file above
    50 MiB never; a drop issues at most one upload request, always for
    a file that was read and passes the test, and it issues the upload
    of the file when a file that passes is dropped alone on an idle
    component. *)
Theorem upload_acceptance :
  forall (table : Js.jsstring -> option Js.jsstring)
         (net : Client.Request -> Client.Outcome UploadResponse)
         (s : FileUpload.State) (files : list Js.File),
    (List.length (Dropzone.acceptedFiles table (FileUpload.options s) files) <= 1)%nat
    /\ (forall g, In g (Dropzone.acceptedFiles table (FileUpload.options s) files) ->
                  FileUpload.passes g = true
                  /\ exists f, In f files /\ FileSelector.ignored f = false
                               /\ g = FileSelector.withMimeType table f)
    /\ (forall f, Dropzone.acceptedFiles table (FileUpload.options s) [f]
                  = [FileSelector.withMimeType table f]
                  <-> FileSelector.ignored f = false
                      /\ FileUpload.passes (FileSelector.withMimeType table f) = true)
    /\ (forall g, In g (Dropzone.acceptedFiles table (FileUpload.options s) files) ->
                  Js.f_size g <= FileUpload.MAX_BYTES)
    /\ (List.length (FileUpload.requests (snd (FileUpload.drop table net files s)))
        <= 1)%nat
    /\ (forall r, In r (FileUpload.requests (snd (FileUpload.drop table net files s))) ->
                  exists f, In f files /\ FileSelector.ignored f = false
                            /\ FileUpload.passes (FileSelector.withMimeType table f) = true
                            /\ r = Client.uploadDocument (FileSelector.withMimeType table f))
    /\ (forall f, FileUpload.st_uploading s = false ->
                  FileSelector.ignored f = false ->
                  FileUpload.passes (FileSelector.withMimeType table f) = true ->
                  FileUpload.requests (snd (FileUpload.drop table net [f] s))
                  = [Client.uploadDocument (FileSelector.withMimeType table f)]).
Proof.
  intros table net s files.
  assert (Hacc : forall g,
             In g (Dropzone.acceptedFiles table (FileUpload.options s) files) ->
             FileUpload.passes g = true
             /\ exists f, In f files /\ FileSelector.ignored f = false
                          /\ g = FileSelector.withMimeType table f).
  { intros g Hin.
    destruct (acceptedFiles_cases table s files) as [E | (f & E & Hf & Hig & Hp)];
      rewrite E in Hin; simpl in Hin.
    - contradiction.
    - destruct Hin as [<- | []]. split; [exact Hp|]. now exists f. }
  split; [|split; [exact Hacc|split; [|split; [|split; [|split]]]]].
  - destruct (acceptedFiles_cases table s files) as [E | (g & E & _)];
      rewrite E; simpl; lia.
  - intro f. rewrite acceptedFiles_single.
    destruct (FileSelector.ignored f); destruct (FileUpload.passes _); cbn;
      split; intro H; try reflexivity; try discriminate; try (now split);
      destruct H; discriminate.
  - intros g Hin. apply Hacc in Hin. destruct Hin as [Hp _].
    unfold FileUpload.passes in Hp. apply andb_true_iff in Hp.
    destruct Hp as [_ Hp]. now apply Z.leb_le in Hp.
  - destruct (drop_requests table net s files) as [E | (g & E & _)];
      rewrite E; simpl; lia.
  - intros r Hin.
    destruct (drop_requests table net s files) as [E | (f & E & Hf & Hig & Hp)];
      rewrite E in Hin; simpl in Hin.
    + contradiction.
    + destruct Hin as [<- | []]. exists f. auto.
  - intros f Hidle Hig Hp. unfold FileUpload.drop.
    change (Dropzone.disabled (FileUpload.options s)) with (FileUpload.st_uploading s).
    rewrite Hidle, acceptedFiles_single, Hig, Hp. cbn.
    destruct (net _); reflexivity.
Qed.

(** C7 as stated fails: a file named notes.log, of type text/plain,
    has none of the seven extensions, and still it is accepted and
    uploaded; so it is when the browser reports no type for it and
    file-selector fills in text/plain. *)
Lemma upload_accepts_unlisted_extension :
  FileUpload.hasListedExtension log_file = false
  /\ Dropzone.acceptedFiles some_mime_types (FileUpload.options FileUpload.initial)
       [log_file] = [log_file]
  /\ FileUpload.requests
       (snd (FileUpload.drop some_mime_types refusing [log_file] FileUpload.initial))
     = [Client.uploadDocument log_file]
  /\ FileUpload.requests
       (snd (FileUpload.drop some_mime_types refusing [untyped_log] FileUpload.initial))
     = [Client.uploadDocument log_file].
Proof. vm_compute. repeat split. Qed.

(** A name in capitals with a listed extension passes, an oversize
    file does not, two acceptable files in one drop are rejected
    together, and a thumbnail cache is not even read. *)
Example upload_examples :
  FileUpload.passes text_file = true
  /\ FileUpload.passes huge_pdf = false
  /\ FileUpload.requests
       (snd (FileUpload.drop some_mime_types refusing [huge_pdf] FileUpload.initial)) = []
  /\ Dropzone.acceptedFiles some_mime_types (FileUpload.options FileUpload.initial)
       [text_file; log_file] = []
  /\ Dropzone.acceptedFiles some_mime_types (FileUpload.options FileUpload.initial)
       [text_file; huge_pdf]
     = [FileSelector.withMimeType some_mime_types text_file]
  /\ Js.f_type (FileSelector.withMimeType some_mime_types text_file)
     = Js.lit "text/plain"
  /\ Dropzone.acceptedFiles some_mime_types (FileUpload.options FileUpload.initial)
       [ds_store] = [].
Proof. vm_compute. repeat split. Qed.

(** ** Tier Classifier *)

(** The tier number never decreases with the token count, whatever the
    three thresholds are. *)
Lemma classify_monotone :
  forall cfg n1 n2,
    n1 <= n2 ->
    TierClassifier.number (TierClassifier.classify cfg n1)
    <= TierClassifier.number (TierClassifier.classify cfg n2).
Proof.
  intros cfg n1 n2 Hle. unfold TierClassifier.classify.
  repeat match goal with
         | |- context [?a <=? ?b] => destruct (Z.leb_spec a b)
         end; simpl; lia.
Qed.

Lemma classify_range :
  forall cfg n,
    1 <= TierClassifier.number (TierClassifier.classify cfg n) <= 4.
Proof.
  intros cfg n. destruct (TierClassifier.classify cfg n); simpl; lia.
Qed.

(** C3: with the default thresholds a token count n >= 0 is of tier 1
    exactly when n <= 12000, of tier 2 exactly when 12000 < n <= 25000,
    of tier 3 exactly when 25000 < n <= 50000 and of tier 4 exactly
    when 50000 < n; and n1 <= n2 gives classify(n1) <= classify(n2). *)
Theorem classify_default_thresholds :
  forall n1 n2 : Z,
    0 <= n1 -> n1 <= n2 ->
    (TierClassifier.classify default_config n1 = TierClassifier.T1 <-> n1 <= 12000)
    /\ (TierClassifier.classify default_config n1 = TierClassifier.T2
        <-> 12000 < n1 <= 25000)
    /\ (TierClassifier.classify default_config n1 = TierClassifier.T3
        <-> 25000 < n1 <= 50000)
    /\ (TierClassifier.classify default_config n1 = TierClassifier.T4 <-> 50000 < n1)
    /\ TierClassifier.number (TierClassifier.classify default_config n1)
       <= TierClassifier.number (TierClassifier.classify default_config n2).
Proof.
  intros n1 n2 _ Hle.
  split; [|split; [|split; [|split]]];
    try (apply classify_monotone; exact Hle);
    unfold TierClassifier.classify; cbn [tier1_max_tokens tier2_max_tokens
      tier3_max_tokens default_config];
    destruct (Z.leb_spec n1 12000) as [L1|L1];
    destruct (Z.leb_spec n1 25000) as [L2|L2];
    destruct (Z.leb_spec n1 50000) as [L3|L3];
    split; intro Hcase; try discriminate; try reflexivity; try lia.
Qed.

Lemma classify_default_thresholds_witness :
  (TierClassifier.classify default_config 12000 = TierClassifier.T1 <-> 12000 <= 12000)
  /\ (TierClassifier.classify default_config 12000 = TierClassifier.T2
      <-> 12000 < 12000 <= 25000)
  /\ (TierClassifier.classify default_config 12000 = TierClassifier.T3
      <-> 25000 < 12000 <= 50000)
  /\ (TierClassifier.classify default_config 12000 = TierClassifier.T4 <-> 50000 < 12000)
  /\ TierClassifier.number (TierClassifier.classify default_config 12000)
     <= TierClassifier.number (TierClassifier.classify default_config 12001).
Proof.
  apply (classify_default_thresholds 12000 12001); lia.
Defined.

Example classify_boundaries :
  List.map (TierClassifier.classify default_config)
    [0; 12000; 12001; 25000; 25001; 50000; 50001; 120000]
  = [TierClassifier.T1; TierClassifier.T1; TierClassifier.T2; TierClassifier.T2;
     TierClassifier.T3; TierClassifier.T3; TierClassifier.T4; TierClassifier.T4].
Proof. reflexivity. Qed.

(** ** Budget Allocator *)

Lemma granted_is_min :
  forall cfg d_req,
    BudgetAllocator.granted cfg d_req = Z.min d_req (BudgetAllocator.available cfg).
Proof.
  intros cfg d_req. unfold BudgetAllocator.granted.
  destruct (Z.leb_spec d_req (BudgetAllocator.available cfg)); lia.
Qed.


(** [round_div a b] is an integer nearest to a / b. *)
Lemma round_div_nearest :
  forall a b, 0 < b -> 2 * Z.abs (a - b * BudgetAllocator.round_div a b) <= b.
Proof.
  intros a b Hb. unfold BudgetAllocator.round_div.
  pose proof (Z.div_mod a b ltac:(lia)) as Hdm.
  pose proof (Z.mod_pos_bound a b Hb) as Hr.
  destruct (Z.ltb_spec (2 * (a mod b)) b).
  - lia.
  - destruct (Z.ltb_spec b (2 * (a mod b))).
    + lia.
    + destruct (Z.even (a / b)); lia.
Qed.

(** On a tie the even neighbour is taken. *)
Lemma round_div_tie_even :
  forall a b, 0 < b -> 2 * (a mod b) = b ->
    Z.even (BudgetAllocator.round_div a b) = true.
Proof.
  intros a b Hb Htie. unfold BudgetAllocator.round_div.
  destruct (Z.ltb_spec (2 * (a mod b)) b); [lia|].
  destruct (Z.ltb_spec b (2 * (a mod b))); [lia|].
  destruct (Z.even (a / b)) eqn:E; [exact E|].
  rewrite Z.even_add, E. reflexivity.
Qed.

(** C4: the allocator grants d_granted = min(d_req, W - S - H - B),
    in [allocated_tokens] and in [document_content]; [truncated] is
    true exactly when d_granted < d_req; and [utilization_pct] is
    100 * d_granted / max(d_req, 1) rounded, an integer nearest to that
    quotient. *)
Theorem allocate_grant :
  forall (cfg : Config) (d_req : Z),
    let b := BudgetAllocator.allocate cfg d_req in
    let d_granted :=
      Z.min d_req (total_context_window cfg - reserved_system_tokens cfg
                   - reserved_history_tokens cfg - reserved_response_tokens cfg) in
    allocated_tokens (document b) = d_granted
    /\ document_content (allocations b) = d_granted
    /\ original_tokens (document b) = d_req
    /\ (truncated (document b) = true <-> d_granted < d_req)
    /\ utilization_pct (document b)
       = BudgetAllocator.round_div (100 * d_granted) (Z.max d_req 1)
    /\ 2 * Z.abs (100 * d_granted - Z.max d_req 1 * utilization_pct (document b))
       <= Z.max d_req 1.
Proof.
  intros cfg d_req b d_granted.
  assert (Hg : BudgetAllocator.granted cfg d_req = d_granted)
    by apply granted_is_min.
  assert (Hm : (if 1 <=? d_req then d_req else 1) = Z.max d_req 1)
    by (destruct (Z.leb_spec 1 d_req); lia).
  assert (Hu : utilization_pct (document b)
               = BudgetAllocator.round_div (100 * d_granted) (Z.max d_req 1)).
  { unfold b. cbn [BudgetAllocator.allocate document utilization_pct].
    unfold BudgetAllocator.utilization. now rewrite Hg, Hm. }
  split; [exact Hg|]. split; [exact Hg|]. split; [reflexivity|].
  split; [|split; [exact Hu|]].
  - unfold b. cbn [BudgetAllocator.allocate document truncated].
    rewrite Hg. apply Z.ltb_lt.
  - rewrite Hu. apply round_div_nearest. lia.
Qed.

Example allocate_examples :
  let b := BudgetAllocator.allocate default_config 250000 in
  allocated_tokens (document b) = 184000
  /\ truncated (document b) = true
  /\ utilization_pct (document b) = 74
  /\ utilization_pct (document (BudgetAllocator.allocate default_config 34200)) = 100
  /\ utilization_pct (document (BudgetAllocator.allocate default_config 0)) = 0
  /\ BudgetAllocator.round_div 25 2 = 12
  /\ BudgetAllocator.round_div 27 2 = 14.
Proof. vm_compute. repeat split. Qed.

(** The budget of the 34200-token document of the README: the whole
    document is granted, within a document maximum of 184000. *)
Example readme_budget :
  let b := BudgetAllocator.allocate default_config 34200 in
  total_window b = 200000
  /\ document_content (allocations b) = 34200
  /\ max_tokens (document b) = 184000
  /\ utilization_pct (document b) = 100
  /\ truncated (document b) = false.
Proof. vm_compute. repeat split. Qed.

(** ** Context Assembler *)




(** The fill accepts at most [top_k] chunks. *)
Lemma greedy_fill_at_most_top_k :
  forall D top_k ranked total n,
    n <= top_k ->
    n + Z.of_nat (List.length (ContextAssembler.greedy_fill D top_k ranked total n))
    <= top_k.
Proof.
  intros D top_k ranked. induction ranked as [|cs r IH]; intros total n Hn; simpl.
  - lia.
  - destruct (Z.leb_spec top_k n); simpl; [lia|].
    destruct (_ <=? D).
    + cbn [List.length]. specialize (IH (total + ContextAssembler.c_tokens (fst cs))
                                       (n + 1) ltac:(lia)). lia.
    + apply IH. lia.
Qed.

Section AssemblerProperties.

Variable tokenize : Text -> list N.
Variable trim : Text -> Text.
Variable chunk_texts : Text -> list Text.
Variable bm25 : list ContextAssembler.Chunk -> Text -> ContextAssembler.Chunk -> float.
Variable similarity :
  list ContextAssembler.Chunk -> Text -> option (ContextAssembler.Chunk -> float).

Local Abbreviation count := (ContextAssembler.count tokenize).
Local Abbreviation upload := (ContextAssembler.upload tokenize).
Local Abbreviation assemble :=
  (ContextAssembler.assemble tokenize trim chunk_texts bm25 similarity).

Lemma count_nonneg : forall t, 0 <= count t.
Proof. intro t. unfold ContextAssembler.count. lia. Qed.







(** C5: for a tier-1 document and every query, the assembled context
    is the canonical text of the document and no chunk is used. *)
Theorem tier1_context_is_canonical_text :
  forall (cfg : Config) (doc : ContextAssembler.Document) (query : Text) (top_k : Z),
    ContextAssembler.d_tier doc = TierClassifier.T1 ->
    ContextAssembler.a_context (assemble cfg doc query top_k)
    = ContextAssembler.d_text doc
    /\ ContextAssembler.a_chunks_used (assemble cfg doc query top_k) = []
    /\ ContextAssembler.a_strategy (assemble cfg doc query top_k)
       = ContextAssembler.FullDocument
    /\ ContextAssembler.a_token_count (assemble cfg doc query top_k)
       = ContextAssembler.d_token_count doc.
Proof.
  intros cfg doc query top_k Ht.
  unfold ContextAssembler.assemble. rewrite Ht.
  repeat split.
Qed.

(** An upload of at most [tier1_max_tokens] tokens is such a
    document. *)
Lemma upload_tier1 :
  forall cfg text,
    count text <= tier1_max_tokens cfg ->
    ContextAssembler.d_tier (upload cfg text) = TierClassifier.T1.
Proof.
  intros cfg text H. unfold ContextAssembler.upload.
  cbn [ContextAssembler.d_tier]. unfold TierClassifier.classify.
  destruct (Z.leb_spec (count text) (tier1_max_tokens cfg)); [reflexivity|lia].
Qed.

End AssemblerProperties.

Lemma tier1_context_is_canonical_text_witness :
  ContextAssembler.a_context
    (toy_assemble default_config
       (ContextAssembler.upload toy_tokenize default_config hello) hello 10)
  = hello
  /\ ContextAssembler.a_chunks_used
       (toy_assemble default_config
          (ContextAssembler.upload toy_tokenize default_config hello) hello 10)
     = [].
Proof.
  pose proof (tier1_context_is_canonical_text toy_tokenize
                (Trimmer.trim (fun _ _ => false)) toy_chunk_texts toy_bm25 toy_similarity
                default_config
                (ContextAssembler.upload toy_tokenize default_config hello) hello 10
                eq_refl) as H.
  split; [exact (proj1 H) | exact (proj1 (proj2 H))].
Defined.

(** The small instance on a text of three lines of 9, 9 and 8 tokens,
    28 with the line breaks, which is of tier 4 under the small
    configuration: without embeddings the chunks are ranked by BM25,
    the second and the first fit in the 24 tokens, the third does
    not; with the separator the context has 25 tokens. *)
Example toy_tier4 :
  let r := toy_assemble small_config
             (ContextAssembler.upload toy_tokenize small_config three_lines)
             (text_lit "two") 10 in
  ContextAssembler.a_tier r = TierClassifier.T4
  /\ ContextAssembler.a_context r
     = text_lit "alpha one" ++ ContextAssembler.separator ++ text_lit "beta two."
  /\ ContextAssembler.used_tokens (ContextAssembler.a_chunks_used r) = 18
  /\ ContextAssembler.a_token_count r = 25
  /\ List.map index (ContextAssembler.a_chunks_used r) = [0; 1]
  /\ document_content (allocations (ContextAssembler.a_budget r)) = 24.
Proof. vm_compute. repeat split. Qed.


(** The same with the small configuration: two lines of 12 tokens fill
    the 24 tokens, and the context has 31. *)
Example small_context_above_allocation :
  let r := toy_assemble small_config
             (ContextAssembler.upload toy_tokenize small_config two_short_lines)
             (text_lit "a") 10 in
  ContextAssembler.used_tokens (ContextAssembler.a_chunks_used r) = 24
  /\ ContextAssembler.a_token_count r = 31
  /\ document_content (allocations (ContextAssembler.a_budget r)) = 24.
Proof. vm_compute. repeat split. Qed.

(** ** Trimmer *)

Section SplitJoin.

Context {A : Type}.
Variable sep : A -> bool.

Lemma split_on_not_nil : forall l, Trimmer.split_on sep l <> [].
Proof.
  intros [|x r]; simpl.
  - discriminate.
  - destruct (sep x); [discriminate|].
    destruct (Trimmer.split_on sep r); discriminate.
Qed.

(** No piece holds a separator. *)
Lemma split_on_pieces_free :
  forall l, Forall (Forall (fun x => sep x = false)) (Trimmer.split_on sep l).
Proof.
  induction l as [|x r IH]; simpl.
  - repeat constructor.
  - destruct (sep x) eqn:E.
    + constructor; [constructor | exact IH].
    + destruct (Trimmer.split_on sep r) as [|g gs].
      * repeat constructor. exact E.
      * inversion IH; subst. constructor; [constructor; assumption | assumption].
Qed.

(** What holds of every element holds of every element of every
    piece. *)
Lemma split_on_pieces_from :
  forall (P : A -> Prop) l,
    Forall P l -> Forall (Forall P) (Trimmer.split_on sep l).
Proof.
  intros P l. induction l as [|x r IH]; intro H; simpl.
  - repeat constructor.
  - inversion H; subst. specialize (IH H3).
    destruct (sep x).
    + constructor; [constructor | exact IH].
    + destruct (Trimmer.split_on sep r) as [|g gs].
      * repeat constructor. assumption.
      * inversion IH; subst. constructor; [constructor; assumption | assumption].
Qed.

Lemma split_on_free :
  forall l, Forall (fun x => sep x = false) l -> Trimmer.split_on sep l = [l].
Proof.
  induction l as [|x r IH]; intro H; simpl.
  - reflexivity.
  - inversion H; subst. rewrite H2, (IH H3). reflexivity.
Qed.

Lemma split_on_app_sep :
  forall a s rest,
    Forall (fun x => sep x = false) a -> sep s = true ->
    Trimmer.split_on sep (a ++ s :: rest) = a :: Trimmer.split_on sep rest.
Proof.
  induction a as [|x a IH]; intros s rest Ha Hs; simpl.
  - rewrite Hs. reflexivity.
  - inversion Ha; subst. rewrite H1, (IH s rest H2 Hs). reflexivity.
Qed.

(** Splitting undoes joining, when the pieces hold no separator. *)
Lemma split_on_intercalate :
  forall s ls,
    sep s = true -> ls <> [] ->
    Forall (Forall (fun x => sep x = false)) ls ->
    Trimmer.split_on sep (Trimmer.intercalate [s] ls) = ls.
Proof.
  intros s ls Hs. induction ls as [|x r IH]; intros Hne HF.
  - contradiction.
  - inversion HF; subst. destruct r as [|y r'].
    + simpl. apply split_on_free. assumption.
    + change (Trimmer.intercalate [s] (x :: y :: r'))
        with (x ++ s :: Trimmer.intercalate [s] (y :: r')).
      rewrite split_on_app_sep by assumption.
      f_equal. apply IH; [discriminate | assumption].
Qed.

End SplitJoin.

Lemma intercalate_not_nil :
  forall (A : Type) (sep : list A) ls,
    ls <> [] -> Forall (fun l => l <> []) ls -> Trimmer.intercalate sep ls <> [].
Proof.
  intros A sep ls Hne HF. destruct ls as [|x r]; [contradiction|].
  inversion HF; subst. destruct x as [|a x]; [contradiction|].
  destruct r; simpl; discriminate.
Qed.

(** The lines of joined paragraphs are their lines and empty lines. *)
Lemma intercalate_lines :
  forall (P : Text -> Prop) (ps : list (list Text)),
    P [] -> Forall (Forall P) ps -> Forall P (Trimmer.intercalate [[]] ps).
Proof.
  intros P ps Hnil. induction ps as [|p r IH]; intro HF.
  - constructor.
  - inversion HF; subst. destruct r as [|q r'].
    + simpl. assumption.
    + change (Trimmer.intercalate [[]] (p :: q :: r'))
        with (p ++ [] :: Trimmer.intercalate [[]] (q :: r')).
      apply Forall_app. split; [assumption|].
      constructor; [exact Hnil | apply IH; assumption].
Qed.

Lemma map_fixed :
  forall (A : Type) (f : A -> A) l, Forall (fun x => f x = x) l -> List.map f l = l.
Proof.
  intros A f l H. induction H as [|x l Hx _ IH]; simpl.
  - reflexivity.
  - rewrite Hx, IH. reflexivity.
Qed.

Lemma filter_fixed :
  forall (A : Type) (f : A -> bool) l, Forall (fun x => f x = true) l -> filter f l = l.
Proof.
  intros A f l H. induction H as [|x l Hx _ IH]; simpl.
  - reflexivity.
  - rewrite Hx, IH. reflexivity.
Qed.

Lemma filter_keeps :
  forall (A : Type) (P : A -> Prop) (f : A -> bool) l,
    Forall P l -> Forall P (filter f l).
Proof.
  intros A P f l H. induction H as [|x l Hx _ IH]; simpl.
  - constructor.
  - destruct (f x); [constructor|]; assumption.
Qed.

Lemma filter_holds :
  forall (A : Type) (f : A -> bool) l, Forall (fun x => f x = true) (filter f l).
Proof.
  intros A f l. induction l as [|x l IH]; simpl.
  - constructor.
  - destruct (f x) eqn:E; [constructor|]; assumption.
Qed.

(** *** Whitespace *)

Lemma collapse_from_idempotent :
  forall l b,
    Trimmer.collapse_from b (Trimmer.collapse_from b l) = Trimmer.collapse_from b l.
Proof.
  induction l as [|c r IH]; intro b; simpl.
  - reflexivity.
  - destruct (Trimmer.is_hspace c) eqn:E.
    + destruct b.
      * apply IH.
      * simpl. rewrite IH. reflexivity.
    + simpl. rewrite E, IH. reflexivity.
Qed.

Lemma collapse_idempotent :
  forall l, Trimmer.collapse (Trimmer.collapse l) = Trimmer.collapse l.
Proof. intro l. apply collapse_from_idempotent. Qed.

Lemma hspace_not_newline :
  forall c, Trimmer.is_hspace c = true -> Trimmer.is_newline c = false.
Proof.
  intros c H. unfold Trimmer.is_newline, Trimmer.newline.
  destruct (N.eqb_spec c 10); [subst; discriminate | reflexivity].
Qed.

Lemma collapse_from_no_newline :
  forall l b,
    Forall (fun c => Trimmer.is_newline c = false) l ->
    Forall (fun c => Trimmer.is_newline c = false) (Trimmer.collapse_from b l).
Proof.
  induction l as [|c r IH]; intros b H; simpl.
  - constructor.
  - inversion H; subst. destruct (Trimmer.is_hspace c).
    + destruct b; [apply IH; assumption|].
      constructor; [reflexivity | apply IH; assumption].
    + constructor; [assumption | apply IH; assumption].
Qed.

(** *** Equal paragraphs *)

Lemma text_eqb_eq : forall a b, Trimmer.text_eqb a b = true <-> a = b.
Proof.
  induction a as [|x a IH]; intros [|y b]; simpl; split; intro H;
    try reflexivity; try discriminate.
  - apply andb_true_iff in H. destruct H as [Hx Ha].
    apply N.eqb_eq in Hx. apply IH in Ha. congruence.
  - injection H as -> ->. rewrite N.eqb_refl. simpl. now apply IH.
Qed.

Lemma paragraph_eqb_eq : forall p q, Trimmer.paragraph_eqb p q = true <-> p = q.
Proof.
  induction p as [|x p IH]; intros [|y q]; simpl; split; intro H;
    try reflexivity; try discriminate.
  - apply andb_true_iff in H. destruct H as [Hx Hp].
    apply text_eqb_eq in Hx. apply IH in Hp. congruence.
  - injection H as -> ->. apply andb_true_iff. split.
    + now apply text_eqb_eq.
    + now apply IH.
Qed.

Lemma drop_adjacent_duplicates_cons :
  forall p q r,
    Trimmer.drop_adjacent_duplicates (p :: q :: r) =
    if Trimmer.paragraph_eqb p q then Trimmer.drop_adjacent_duplicates (q :: r)
    else p :: Trimmer.drop_adjacent_duplicates (q :: r).
Proof. reflexivity. Qed.

Lemma drop_adjacent_duplicates_head :
  forall r p, exists r', Trimmer.drop_adjacent_duplicates (p :: r) = p :: r'.
Proof.
  induction r as [|q r IH]; intro p.
  - exists []. reflexivity.
  - rewrite drop_adjacent_duplicates_cons.
    destruct (Trimmer.paragraph_eqb p q) eqn:E.
    + apply paragraph_eqb_eq in E. subst q. apply IH.
    + eexists. reflexivity.
Qed.

Lemma drop_adjacent_duplicates_none_left :
  forall ps, Trimmer.no_adjacent_duplicates (Trimmer.drop_adjacent_duplicates ps).
Proof.
  induction ps as [|p r IH].
  - exact I.
  - destruct r as [|q r'].
    + exact I.
    + rewrite drop_adjacent_duplicates_cons.
      destruct (Trimmer.paragraph_eqb p q) eqn:E.
      * exact IH.
      * destruct (drop_adjacent_duplicates_head r' q) as [r'' Hr].
        rewrite Hr in *. cbn [Trimmer.no_adjacent_duplicates]. split; [|exact IH].
        intro Heq. apply paragraph_eqb_eq in Heq. congruence.
Qed.

Lemma drop_adjacent_duplicates_fixed :
  forall ps, Trimmer.no_adjacent_duplicates ps -> Trimmer.drop_adjacent_duplicates ps = ps.
Proof.
  induction ps as [|p r IH]; intro H.
  - reflexivity.
  - destruct r as [|q r'].
    + reflexivity.
    + destruct H as [Hne Hr]. rewrite drop_adjacent_duplicates_cons.
      destruct (Trimmer.paragraph_eqb p q) eqn:E.
      * apply paragraph_eqb_eq in E. contradiction.
      * rewrite (IH Hr). reflexivity.
Qed.

Lemma drop_adjacent_duplicates_keeps :
  forall (P : list Text -> Prop) ps,
    Forall P ps -> Forall P (Trimmer.drop_adjacent_duplicates ps).
Proof.
  intros P ps. induction ps as [|p r IH]; intro H.
  - constructor.
  - inversion H; subst. destruct r as [|q r'].
    + simpl. assumption.
    + rewrite drop_adjacent_duplicates_cons.
      destruct (Trimmer.paragraph_eqb p q).
      * apply IH. assumption.
      * constructor; [assumption | apply IH; assumption].
Qed.

(** *** Idempotence *)

Lemma split_on_pieces :
  forall (A : Type) (sep : A -> bool) (P : A -> Prop) l,
    Forall P l ->
    Forall (Forall (fun x => P x /\ sep x = false)) (Trimmer.split_on sep l).
Proof.
  intros A sep P l HP.
  pose proof (split_on_pieces_from sep P l HP) as H1.
  pose proof (split_on_pieces_free sep l) as H2.
  induction H1 as [|g gs Hg _ IH].
  - constructor.
  - inversion H2; subst. constructor; [|apply IH; assumption].
    apply Forall_forall. intros x Hx. split.
    + exact (proj1 (Forall_forall _ _) Hg x Hx).
    + exact (proj1 (Forall_forall _ _) H1 x Hx).
Qed.

Lemma filter_keeps_and_holds :
  forall (A : Type) (P : A -> Prop) (f : A -> bool) l,
    Forall P l -> Forall (fun x => P x /\ f x = true) (filter f l).
Proof.
  intros A P f l H. induction H as [|x l Hx _ IH]; simpl.
  - constructor.
  - destruct (f x) eqn:E; [constructor; [split|]|]; assumption.
Qed.

(** To show [Forall Q l] from a known [Forall P l]. *)
Ltac weaken_from H := eapply Forall_impl; [|exact H]; cbv beta.

Section TrimProperties.

Variable boilerplate : list Text -> Text -> bool.

Local Abbreviation trim := (Trimmer.trim boilerplate).

(** The lines the trimmer works on are single collapsed lines. *)
Lemma collapsed_lines :
  forall x,
    Forall (fun l => Forall (fun c => Trimmer.is_newline c = false) l
                     /\ Trimmer.collapse l = l)
      (List.map Trimmer.collapse (Trimmer.split_lines x)).
Proof.
  intro x. apply Forall_map.
  pose proof (split_on_pieces_free Trimmer.is_newline x) as H.
  weaken_from H.
  intros l Hl. split.
  - apply collapse_from_no_newline. exact Hl.
  - apply collapse_idempotent.
Qed.

(** The paragraphs the trimmer joins are clean, and none of their lines
    matched a pattern in the document. *)
Lemma trim_paragraphs_clean :
  forall x,
    let lines := List.map Trimmer.collapse (Trimmer.split_lines x) in
    let ps := Trimmer.drop_adjacent_duplicates
                (Trimmer.remove_boilerplate boilerplate lines
                   (Trimmer.paragraphs lines)) in
    Trimmer.clean ps
    /\ Forall (Forall (fun l => boilerplate lines l = false)) ps.
Proof.
  intro x. cbv zeta.
  set (lines := List.map Trimmer.collapse (Trimmer.split_lines x)).
  assert (Hlines : Forall (Forall (fun l => Trimmer.clean_line l
                                           /\ boilerplate lines l = false))
                     (Trimmer.remove_boilerplate boilerplate lines
                        (Trimmer.paragraphs lines))).
  { unfold Trimmer.remove_boilerplate. apply filter_keeps. apply Forall_map.
    unfold Trimmer.paragraphs. apply filter_keeps.
    pose proof (split_on_pieces _ Trimmer.blank _ _ (collapsed_lines x)) as H.
    fold lines in H. weaken_from H. intros p Hp.
    pose proof (filter_keeps_and_holds _ _ (fun l => negb (boilerplate lines l)) p Hp)
      as Hf.
    weaken_from Hf. intros l [[[Hnl Hc] Hb] Hbp].
    unfold Trimmer.clean_line. repeat split; try assumption.
    now apply negb_true_iff in Hbp. }
  split; [unfold Trimmer.clean; split; [|split]|].
  - apply drop_adjacent_duplicates_keeps. unfold Trimmer.remove_boilerplate.
    pose proof (filter_holds _ Trimmer.nonempty
                  (List.map (filter (fun l => negb (boilerplate lines l)))
                     (Trimmer.paragraphs lines))) as H.
    weaken_from H. intros [|l p] Hp; [discriminate Hp | discriminate].
  - apply drop_adjacent_duplicates_keeps.
    weaken_from Hlines. intros p Hp. weaken_from Hp. now intros l [H _].
  - apply drop_adjacent_duplicates_none_left.
  - apply drop_adjacent_duplicates_keeps.
    weaken_from Hlines. intros p Hp. weaken_from Hp. now intros l [_ H].
Qed.

(** The lines of the text of clean paragraphs. *)
Lemma lines_of_joined :
  forall ps,
    ps <> [] -> Trimmer.clean ps ->
    List.map Trimmer.collapse (Trimmer.split_lines (Trimmer.join_paragraphs ps))
    = Trimmer.intercalate [[]] ps.
Proof.
  intros ps Hps (Hne & Hclean & _).
  unfold Trimmer.join_paragraphs, Trimmer.split_lines, Trimmer.unlines.
  assert (Hlines : Forall (fun l => Forall (fun c => Trimmer.is_newline c = false) l
                                    /\ Trimmer.collapse l = l)
                     (Trimmer.intercalate [[]] ps)).
  { apply intercalate_lines.
    - split; [constructor | reflexivity].
    - weaken_from Hclean. intros q Hq.
      weaken_from Hq. intros l (H1 & H2 & _). now split. }
  rewrite split_on_intercalate.
  2: reflexivity.
  2: now apply intercalate_not_nil.
  2: { weaken_from Hlines. now intros l [H _]. }
  apply map_fixed. weaken_from Hlines. now intros l [_ H].
Qed.

(** A trimmer pass over the text of clean paragraphs in which no line
    matches a pattern changes nothing. *)
Lemma trim_join_clean :
  forall ps,
    Trimmer.clean ps ->
    Forall (Forall (fun l => boilerplate (Trimmer.intercalate [[]] ps) l = false)) ps ->
    trim (Trimmer.join_paragraphs ps) = Trimmer.join_paragraphs ps.
Proof.
  intros ps Hc Hbp.
  destruct ps as [|p r].
  { reflexivity. }
  assert (Hps : p :: r <> []) by discriminate.
  set (ps := p :: r) in *.
  unfold Trimmer.trim. cbv zeta. rewrite (lines_of_joined ps Hps Hc).
  destruct Hc as (Hne & Hclean & Hadj).
  unfold Trimmer.paragraphs.
  rewrite split_on_intercalate.
  2: reflexivity.
  2: exact Hps.
  2: { weaken_from Hclean. intros q Hq.
       weaken_from Hq. now intros l (_ & _ & H). }
  rewrite filter_fixed.
  2: { weaken_from Hne. intros [|l q] H; [contradiction | reflexivity]. }
  unfold Trimmer.remove_boilerplate.
  rewrite map_fixed.
  2: { weaken_from Hbp. intros q Hq. apply filter_fixed.
       weaken_from Hq. intros l H. now rewrite H. }
  rewrite filter_fixed.
  2: { weaken_from Hne. intros [|l q] H; [contradiction | reflexivity]. }
  rewrite drop_adjacent_duplicates_fixed by exact Hadj.
  reflexivity.
Qed.



End TrimProperties.

(** With patterns that test a line alone the trimmed form is always
    settled, and the trimmer is idempotent. *)
Lemma trim_idempotent_line_patterns :
  forall (pattern : Text -> bool) (x : Text),
    Trimmer.trim (fun _ => pattern) (Trimmer.trim (fun _ => pattern) x)
    = Trimmer.trim (fun _ => pattern) x.
Proof.
  intros pattern x.
  destruct (trim_paragraphs_clean (fun _ => pattern) x) as [Hc Hbp].
  cbv zeta in Hc, Hbp.
  unfold Trimmer.trim at 2 3. cbv zeta.
  apply trim_join_clean; [exact Hc | exact Hbp].
Qed.



(** The two pages trimmed: the whitespace collapsed, the footers gone,
    the repeated paragraph once; trimming again changes nothing. *)
Example trim_two_pages :
  Trimmer.trim page_patterns two_pages
  = text_lit "Quarterly report" ++ [10%N] ++ text_lit " of the board"
    ++ [10%N; 10%N] ++ text_lit "Figures follow."
  /\ Trimmer.trim page_patterns (Trimmer.trim page_patterns two_pages)
     = Trimmer.trim page_patterns two_pages.
Proof. vm_compute. split; reflexivity. Qed.

(** * Further properties of the front end *)

(** ** api/client.ts *)

(** X1: two calls of [queryDocument] post the same request exactly when
    they agree on the document id, on the query and on the [top_k]
    that is sent, an omitted [topK] counting as 10; and no query
    request is an upload request. *)
Theorem queryDocument_request_determines_arguments :
  forall (d d' q q' : Js.jsstring) (k k' : option Z),
    (Client.queryDocument d q k = Client.queryDocument d' q' k'
     <-> d = d' /\ q = q'
         /\ match k with Some n => n | None => 10 end
            = match k' with Some n => n | None => 10 end)
    /\ (forall f, Client.queryDocument d q k <> Client.uploadDocument f).
Proof.
  intros d d' q q' k k'. split; [split|].
  - intro H. unfold Client.queryDocument in H.
    injection H as Hd Hq Hk. auto.
  - intros (-> & -> & Hk). unfold Client.queryDocument. rewrite Hk. reflexivity.
  - intros f H. discriminate H.
Qed.

(** ** components/QueryInterface.tsx *)

Lemma handleQuery_unfold :
  forall net doc s,
    Js.trim (QueryInterface.st_query s) <> [] ->
    QueryInterface.handleQuery net doc s =
    (QueryInterface.setLoading false
       (match net (Client.queryDocument (up_doc_id doc) (QueryInterface.st_query s) None) with
        | inr res =>
            QueryInterface.setResult (Some res)
              (QueryInterface.setError None (QueryInterface.setLoading true s))
        | inl err =>
            QueryInterface.setError (Some (QueryInterface.errorMessage err))
              (QueryInterface.setError None (QueryInterface.setLoading true s))
        end),
     [Client.queryDocument (up_doc_id doc) (QueryInterface.st_query s) None]).
Proof.
  intros net doc s Hq. unfold QueryInterface.handleQuery.
  destruct (Js.trim (QueryInterface.st_query s)); [contradiction | reflexivity].
Qed.

(** X2: a query that is not blank and that the server answers ends
    with the answer as the result, no error, [loading] false and the
    query text as typed; the one request it issues carries the query
    untrimmed. *)
Theorem handleQuery_success :
  forall net doc s res,
    Js.trim (QueryInterface.st_query s) <> [] ->
    net (Client.queryDocument (up_doc_id doc) (QueryInterface.st_query s) None) = inr res ->
    QueryInterface.handleQuery net doc s =
    ({| QueryInterface.st_query := QueryInterface.st_query s;
        QueryInterface.st_loading := false;
        QueryInterface.st_result := Some res;
        QueryInterface.st_error := None |},
     [Client.queryDocument (up_doc_id doc) (QueryInterface.st_query s) None]).
Proof.
  intros net doc s res Hq Hnet.
  rewrite handleQuery_unfold by exact Hq. rewrite Hnet. reflexivity.
Qed.

Lemma handleQuery_success_witness :
  QueryInterface.handleQuery (fun _ => inr some_response) some_document typed_state =
  ({| QueryInterface.st_query := Js.lit " main findings ";
      QueryInterface.st_loading := false;
      QueryInterface.st_result := Some some_response;
      QueryInterface.st_error := None |},
   [Client.queryDocument (Js.lit "a3f2c1d0") (Js.lit " main findings ") None]).
Proof.
  apply (handleQuery_success (fun _ => inr some_response) some_document typed_state
           some_response).
  - vm_compute. discriminate.
  - reflexivity.
Defined.



(** X4: the Enter key is not held back by the disabled Search button:
    while a search is loading the button is disabled, and Enter on a
    query that is not blank still issues a request; any other key
    issues none and changes nothing. *)
Theorem enter_key_while_loading :
  forall net doc s key,
    Js.trim (QueryInterface.st_query s) <> [] ->
    QueryInterface.st_loading s = true ->
    QueryInterface.searchDisabled s = true
    /\ snd (QueryInterface.onKeyDown net doc (Js.lit "Enter") s)
       = [Client.queryDocument (up_doc_id doc) (QueryInterface.st_query s) None]
    /\ (Js.eqb key (Js.lit "Enter") = false ->
        QueryInterface.onKeyDown net doc key s = (s, [])).
Proof.
  intros net doc s key Hq Hl. split; [|split].
  - unfold QueryInterface.searchDisabled. rewrite Hl. reflexivity.
  - unfold QueryInterface.onKeyDown.
    change (Js.eqb (Js.lit "Enter") (Js.lit "Enter")) with true. cbv iota.
    rewrite handleQuery_unfold by exact Hq. reflexivity.
  - intro Hk. unfold QueryInterface.onKeyDown. rewrite Hk. reflexivity.
Qed.

Lemma enter_key_while_loading_witness :
  QueryInterface.searchDisabled busy_state = true
  /\ snd (QueryInterface.onKeyDown (fun _ => inr some_response) some_document
            (Js.lit "Enter") busy_state)
     = [Client.queryDocument (Js.lit "a3f2c1d0") (Js.lit " main findings ") None].
Proof.
  pose proof (enter_key_while_loading (fun _ => inr some_response) some_document
                busy_state (Js.lit "a") ltac:(vm_compute; discriminate) eq_refl) as H.
  split; [exact (proj1 H) | exact (proj1 (proj2 H))].
Defined.

(** What is written for a count: nothing when it is absent, the bare
    digit when it is 0, the label otherwise. *)
Lemma count_label_cases :
  forall (n : option Z) (unit : string),
    match n with
    | None => QueryView.renderValue (QueryView.countLabel n unit) = []
    | Some k =>
        if k =? 0
        then QueryView.renderValue (QueryView.countLabel n unit) = [QueryView.Num 0]
        else QueryView.renderValue (QueryView.countLabel n unit)
             = [QueryView.Str " · "; QueryView.Num k; QueryView.Str unit]
    end.
Proof.
  intros [[|k|k]|] unit; reflexivity.
Qed.


(** A table without data rows: "0.0 KB" is followed by a 0. *)
Example summary_of_empty_csv :
  QueryView.summary empty_csv =
  [QueryView.KiloBytes 12; QueryView.Str " KB"; QueryView.Num 0].
Proof. reflexivity. Qed.

(** ** components/FileUpload.tsx *)


(** X7: a drop is ignored whole, with no request, no call of
    [onUploaded] and the state, an earlier error message included,
    left as it was, when the component is uploading, when no file of
    the drop, as file-selector read it, passes the test, or when more
    than one does. *)
Theorem ignored_drop :
  forall table net s files,
    FileUpload.st_uploading s = true
    \/ Forall (fun f => FileUpload.passes f = false)
         (FileSelector.fromEvent table files)
    \/ (2 <= List.length (filter FileUpload.passes
                            (FileSelector.fromEvent table files)))%nat ->
    FileUpload.drop table net files s = (s, FileUpload.noEffects).
Proof.
  intros table net s files H. unfold FileUpload.drop.
  change (Dropzone.disabled (FileUpload.options s)) with (FileUpload.st_uploading s).
  destruct (FileUpload.st_uploading s) eqn:Hu; [reflexivity|].
  unfold Dropzone.acceptedFiles.
  destruct H as [H | [H | H]]; [discriminate| |]; rewrite setFiles_eq; cbv zeta.
  - assert (E : filter FileUpload.passes (FileSelector.fromEvent table files) = []).
    { induction H as [|f l Hf _ IH]; simpl; [reflexivity | now rewrite Hf]. }
    rewrite E. reflexivity.
  - destruct (Z.ltb_spec 1 (Z.of_nat (List.length
                (filter FileUpload.passes (FileSelector.fromEvent table files)))));
      [reflexivity | lia].
Qed.

Lemma ignored_drop_witness :
  let s := {| FileUpload.st_uploading := false;
              FileUpload.st_error := Some (Js.lit "Network Error") |} in
  FileUpload.drop some_mime_types refusing [text_file; log_file] s
  = (s, FileUpload.noEffects).
Proof.
  apply ignored_drop. right. right. vm_compute. lia.
Defined.

(** A file without a type that would pass by the type file-selector
    gives it is not among the ignored drops: it is uploaded. *)
Example untyped_file_is_read :
  FileUpload.passes untyped_log = false
  /\ FileUpload.passes (FileSelector.withMimeType some_mime_types untyped_log) = true
  /\ FileUpload.drop some_mime_types refusing [untyped_log] FileUpload.initial
     <> (FileUpload.initial, FileUpload.noEffects).
Proof. vm_compute. repeat split. discriminate. Qed.

Lemma startsWith_app : forall p r, Js.startsWith (p ++ r) p = true.
Proof.
  induction p as [|x p IH]; intro r; simpl.
  - destruct r; reflexivity.
  - rewrite N.eqb_refl. apply IH.
Qed.

Lemma endsWith_app : forall b e, Js.endsWith (b ++ e) e = true.
Proof.
  intros b e. unfold Js.endsWith. rewrite rev_app_distr. apply startsWith_app.
Qed.

Lemma jsstring_eqb_eq : forall a b, Js.eqb a b = true -> a = b.
Proof.
  induction a as [|x a IH]; intros [|y b] H; simpl in H;
    try reflexivity; try discriminate H.
  apply andb_true_iff in H. destruct H as [Hx Hr].
  apply N.eqb_eq in Hx. rewrite Hx, (IH b Hr). reflexivity.
Qed.

(** What file-selector does to a file leaves name and size alone. *)
Lemma withMimeType_name_size :
  forall table f,
    Js.f_name (FileSelector.withMimeType table f) = Js.f_name f
    /\ Js.f_size (FileSelector.withMimeType table f) = Js.f_size f.
Proof.
  intros table f. unfold FileSelector.withMimeType.
  destruct (_ && _); [|now split].
  destruct (table _) as [t|]; [|now split].
  destruct (Js.truthy t); now split.
Qed.

(** A file that has a type is read as it is. *)
Lemma withMimeType_typed :
  forall table f,
    Js.truthy (Js.f_type f) = true -> FileSelector.withMimeType table f = f.
Proof.
  intros table f H. unfold FileSelector.withMimeType. rewrite H.
  rewrite andb_false_r. reflexivity.
Qed.

(** Neither of the two names file-selector leaves out ends in a listed
    extension. *)
Lemma listed_extension_not_ignored :
  forall f, FileUpload.hasListedExtension f = true -> FileSelector.ignored f = false.
Proof.
  intros f Hext. unfold FileSelector.ignored, FileSelector.FILES_TO_IGNORE.
  cbn [existsb]. unfold FileUpload.hasListedExtension in Hext.
  destruct (Js.eqb (Js.f_name f) (Js.lit ".DS_Store")) eqn:E1.
  { apply jsstring_eqb_eq in E1. rewrite E1 in Hext. vm_compute in Hext.
    discriminate Hext. }
  destruct (Js.eqb (Js.f_name f) (Js.lit "Thumbs.db")) eqn:E2.
  { apply jsstring_eqb_eq in E2. rewrite E2 in Hext. vm_compute in Hext.
    discriminate Hext. }
  reflexivity.
Qed.

(** X8: a file whose name ends, in whatever letter case, in one of the
    listed extensions and whose size is at most 50 MiB is accepted
    when dropped alone, whatever its MIME type is, the empty one
    included, and on an idle component it is uploaded.  The file that
    is accepted and uploaded is the one file-selector read: the
    dropped file itself when it has a type, and otherwise the file
    with the same name and size and the type of file-selector's table,
    if the table has one for the extension. *)
Theorem listed_extension_accepted :
  forall table net s (base suffix type : Js.jsstring) (size : Z),
    In (Js.toLowerCase suffix) FileUpload.extensions ->
    size <= FileUpload.MAX_BYTES ->
    let f := {| Js.f_name := base ++ suffix; Js.f_type := type; Js.f_size := size |} in
    let read := FileSelector.withMimeType table f in
    Dropzone.acceptedFiles table (FileUpload.options s) [f] = [read]
    /\ Js.f_name read = base ++ suffix
    /\ Js.f_size read = size
    /\ (Js.truthy type = true -> read = f)
    /\ (FileUpload.st_uploading s = false ->
        FileUpload.requests (snd (FileUpload.drop table net [f] s))
        = [Client.uploadDocument read]).
Proof.
  intros table net s base suffix type size Hext Hsize f read.
  destruct (withMimeType_name_size table f) as [Hname Hsz].
  fold read in Hname, Hsz. cbn [f Js.f_name Js.f_size] in Hname, Hsz.
  assert (Hlisted : FileUpload.hasListedExtension read = true).
  { unfold FileUpload.hasListedExtension.
    apply existsb_exists. exists (Js.toLowerCase suffix). split; [exact Hext|].
    rewrite Hname. unfold Js.toLowerCase. rewrite map_app.
    apply endsWith_app. }
  assert (Hp : FileUpload.passes read = true).
  { unfold FileUpload.passes. apply andb_true_iff. split.
    - apply orb_true_iff. right. exact Hlisted.
    - rewrite Hsz. apply Z.leb_le. exact Hsize. }
  assert (Hig : FileSelector.ignored f = false).
  { apply listed_extension_not_ignored. unfold FileUpload.hasListedExtension.
    apply existsb_exists. exists (Js.toLowerCase suffix). split; [exact Hext|].
    cbn [f Js.f_name]. unfold Js.toLowerCase. rewrite map_app.
    apply endsWith_app. }
  assert (Hacc : Dropzone.acceptedFiles table (FileUpload.options s) [f] = [read]).
  { rewrite acceptedFiles_single. fold read. rewrite Hig, Hp. reflexivity. }
  split; [exact Hacc|]. split; [exact Hname|]. split; [exact Hsz|].
  split; [intro Ht; apply withMimeType_typed; exact Ht|].
  intro Hidle. unfold FileUpload.drop.
  change (Dropzone.disabled (FileUpload.options s)) with (FileUpload.st_uploading s).
  rewrite Hidle, Hacc. unfold FileUpload.onDrop.
  destruct (net (Client.uploadDocument read)); reflexivity.
Qed.

Lemma listed_extension_accepted_witness :
  Dropzone.acceptedFiles some_mime_types (FileUpload.options FileUpload.initial)
    [ {| Js.f_name := Js.lit "README" ++ Js.lit ".MD"; Js.f_type := [];
         Js.f_size := 52428800 |} ]
  = [ {| Js.f_name := Js.lit "README.MD"; Js.f_type := Js.lit "text/markdown";
         Js.f_size := 52428800 |} ].
Proof.
  apply (listed_extension_accepted some_mime_types refusing FileUpload.initial
           (Js.lit "README") (Js.lit ".MD") [] 52428800).
  - vm_compute. auto.
  - vm_compute. discriminate.
Defined.

(** ** components/ChunkViewer.tsx *)

Lemma mapi_length :
  forall (A B : Type) (f : nat -> A -> B) l k,
    List.length (ChunkViewer.mapi f k l) = List.length l.
Proof.
  intros A B f l. induction l as [|x l IH]; intro k; simpl; [reflexivity|].
  now rewrite IH.
Qed.

Lemma mapi_keys :
  forall (A B : Type) (g : A -> B) l k,
    List.map fst (ChunkViewer.mapi (fun i x => (i, g x)) k l) = seq k (List.length l).
Proof.
  intros A B g l. induction l as [|x l IH]; intro k; simpl; [reflexivity|].
  now rewrite IH.
Qed.

(** X9: under the tab of the chunks the viewer shows the line "No
    chunks" exactly when [chunks] is empty; otherwise it shows one row
    per chunk, in the order of [chunks], keyed 0, 1, 2, ...; the tab
    label carries the number of chunks. *)
Theorem chunk_rows_per_chunk :
  forall p s,
    ChunkViewer.tab s = ChunkViewer.TabChunks ->
    (ChunkViewer.chunks p = [] <->
     ChunkViewer.panel (ChunkViewer.ChunkViewer p s)
     = ChunkViewer.NoChunks "No chunks (full document used directly)")
    /\ (ChunkViewer.chunks p <> [] ->
        exists rows,
          ChunkViewer.panel (ChunkViewer.ChunkViewer p s) = ChunkViewer.ChunkRows rows
          /\ List.map fst rows = seq 0 (List.length (ChunkViewer.chunks p))
          /\ List.map snd rows
             = List.map (fun c => ChunkViewer.rendered (ChunkViewer.rowChildren c))
                 (ChunkViewer.chunks p))
    /\ ChunkViewer.chunksTabLabel (ChunkViewer.ChunkViewer p s)
       = [ChunkViewer.Str "Chunks Used (";
          ChunkViewer.Num (Z.of_nat (List.length (ChunkViewer.chunks p)));
          ChunkViewer.Str ")"].
Proof.
  intros p s Htab. unfold ChunkViewer.ChunkViewer.
  cbn [ChunkViewer.panel ChunkViewer.chunksTabLabel]. rewrite Htab.
  split; [|split; [|reflexivity]].
  - destruct (ChunkViewer.chunks p); split; intro H;
      try reflexivity; discriminate.
  - intro Hne. destruct (ChunkViewer.chunks p) as [|c cs] eqn:E; [contradiction|].
    eexists. split; [reflexivity|]. split.
    + apply mapi_keys.
    + generalize 0%nat. generalize (c :: cs). clear.
      induction l as [|x l IH]; intro k; simpl; [reflexivity|].
      now rewrite IH.
Qed.

Lemma chunk_rows_per_chunk_witness :
  exists rows,
    ChunkViewer.panel (ChunkViewer.ChunkViewer viewer_props ChunkViewer.initial)
    = ChunkViewer.ChunkRows rows
    /\ List.map fst rows = [0; 1]%nat.
Proof.
  destruct (chunk_rows_per_chunk viewer_props ChunkViewer.initial eq_refl)
    as (_ & H & _).
  destruct (H ltac:(discriminate)) as (rows & Hp & Hk & _).
  exists rows. split; [exact Hp | exact Hk].
Defined.

(** X10: under the tab of the context the viewer shows a prefix of the
    assembled context: the whole of it when it has at most 800 code
    units or the view is expanded, and its first 800 code units
    followed by an ellipsis otherwise; the button that expands or
    collapses is there exactly when the context has more than 800
    code units. *)
Theorem context_preview :
  forall p s,
    ChunkViewer.tab s = ChunkViewer.TabContext ->
    exists preview ellipsis button,
      ChunkViewer.panel (ChunkViewer.ChunkViewer p s)
      = ChunkViewer.Context preview ellipsis button
      /\ preview ++ skipn (List.length preview) (ChunkViewer.assembledContext p)
         = ChunkViewer.assembledContext p
      /\ ((List.length (ChunkViewer.assembledContext p) <= 800)%nat
          \/ ChunkViewer.expanded s = true ->
          preview = ChunkViewer.assembledContext p /\ ellipsis = false)
      /\ ((800 < List.length (ChunkViewer.assembledContext p))%nat ->
          ChunkViewer.expanded s = false ->
          List.length preview = 800%nat /\ ellipsis = true)
      /\ (button <> None <-> (800 < List.length (ChunkViewer.assembledContext p))%nat).
Proof.
  intros p s Htab. unfold ChunkViewer.ChunkViewer. cbn [ChunkViewer.panel].
  rewrite Htab. do 3 eexists. split; [reflexivity|].
  set (ctx := ChunkViewer.assembledContext p). unfold Js.slice0.
  destruct (Nat.ltb_spec 800 (List.length ctx)) as [Hlong|Hshort].
  - destruct (ChunkViewer.expanded s); cbn [negb andb].
    + split; [now rewrite skipn_all, app_nil_r|].
      split; [auto|]. split; [intros _ H; discriminate H|].
      split; [auto | discriminate].
    + rewrite length_firstn, Nat.min_l by lia.
      split; [apply firstn_skipn|].
      split; [intros [H|H]; [lia | discriminate H]|].
      split; [auto|]. split; [auto | discriminate].
  - assert (Hall : firstn 800 ctx = ctx) by (apply firstn_all2; exact Hshort).
    destruct (ChunkViewer.expanded s); cbn [negb andb]; try rewrite Hall;
      (split; [now rewrite skipn_all, app_nil_r|]);
      (split; [auto|]); (split; [intros; lia|]);
      (split; [intro H; now contradiction H | intro; lia]).
Qed.

Lemma context_preview_witness :
  exists preview ellipsis button,
    ChunkViewer.panel (ChunkViewer.ChunkViewer long_props context_state)
    = ChunkViewer.Context preview ellipsis button
    /\ List.length preview = 800%nat /\ ellipsis = true.
Proof.
  destruct (context_preview long_props context_state eq_refl)
    as (preview & ellipsis & button & Hp & _ & _ & Hlong & _).
  exists preview, ellipsis, button. split; [exact Hp|].
  apply Hlong; [vm_compute; reflexivity | reflexivity].
Defined.

(** ** components/TokenBudgetChart.tsx *)

(** X11: the chart has four slices, the document first; every slice
    has a label and every cell a colour, no index running past the end
    of [LABELS] or [COLORS]; the pie is drawn from the sum of the four
    allocations, whatever total the title shows, and the warning is
    shown exactly for a truncated budget. *)
Theorem chart_slices :
  forall b : TokenBudget,
    let v := TokenBudgetChart.TokenBudgetChart b in
    List.map TokenBudgetChart.name (TokenBudgetChart.slices v)
    = List.map Some TokenBudgetChart.LABELS
    /\ List.map snd (TokenBudgetChart.fills v) = List.map Some TokenBudgetChart.COLORS
    /\ List.map TokenBudgetChart.value (TokenBudgetChart.slices v)
       = [document_content (allocations b); system_prompt (allocations b);
          conversation_history (allocations b); response_buffer (allocations b)]
    /\ TokenBudgetChart.pieTotal b
       = document_content (allocations b) + system_prompt (allocations b)
         + conversation_history (allocations b) + response_buffer (allocations b)
    /\ (TokenBudgetChart.pieTotal b = TokenBudgetChart.titleTotal v
        <-> BudgetAllocator.allocated_total b = total_window b)
    /\ TokenBudgetChart.truncationWarning v = truncated (document b).
Proof.
  intro b. cbv zeta.
  assert (Hsum : TokenBudgetChart.pieTotal b
                 = document_content (allocations b) + system_prompt (allocations b)
                   + conversation_history (allocations b)
                   + response_buffer (allocations b)).
  { unfold TokenBudgetChart.pieTotal, TokenBudgetChart.data. cbn. lia. }
  repeat split; try reflexivity; try exact Hsum;
    unfold BudgetAllocator.allocated_total in *;
    cbn [TokenBudgetChart.TokenBudgetChart TokenBudgetChart.titleTotal] in *; lia.
Qed.

(** ** components/TierBadge.tsx and the tier legend of App.tsx *)

(** X12: [TIER_BG] has a class for the tiers 1, 2, 3 and 4 and for no
    other number; for any other tier the class of the badge ends in
    the word "undefined".  The tiers of the legend of App.tsx all have
    a class, and the colours of the legend are those of
    tailwind.config.js. *)
Theorem tier_badge_class :
  forall t : TierInfo,
    (TierBadge.lookup (tier t) TierBadge.TIER_BG <> None <-> 1 <= tier t <= 4)
    /\ (~ 1 <= tier t <= 4 ->
        TierBadge.className t = (TierBadge.baseClass ++ "undefined")%string)
    /\ Forall (fun e => TierBadge.lookup (App.l_tier e) TierBadge.TIER_BG <> None)
         App.legend
    /\ List.map App.l_color App.legend = List.map snd Tailwind.colors.
Proof.
  intro t.
  assert (Hout : ~ 1 <= tier t <= 4 -> TierBadge.lookup (tier t) TierBadge.TIER_BG = None).
  { intro H. unfold TierBadge.lookup, TierBadge.TIER_BG.
    destruct (Z.eqb_spec (tier t) 1); [lia|].
    destruct (Z.eqb_spec (tier t) 2); [lia|].
    destruct (Z.eqb_spec (tier t) 3); [lia|].
    destruct (Z.eqb_spec (tier t) 4); [lia|]. reflexivity. }
  split; [|split; [|split]].
  - split.
    + intro H. destruct (Z_le_dec 1 (tier t)) as [H1|H1];
        [destruct (Z_le_dec (tier t) 4) as [H4|H4]; [lia|]|];
        exfalso; apply H; apply Hout; lia.
    + intros H Hnone.
      assert (Hc : tier t = 1 \/ tier t = 2 \/ tier t = 3 \/ tier t = 4) by lia.
      destruct Hc as [E | [E | [E | E]]]; rewrite E in Hnone; discriminate Hnone.
  - intro H. unfold TierBadge.className. rewrite (Hout H). reflexivity.
  - repeat constructor; discriminate.
  - reflexivity.
Qed.

(** ** components/FileUpload.tsx, the MIME types *)

Lemma jsstring_eqb_refl : forall a, Js.eqb a a = true.
Proof.
  induction a as [|x a IH]; simpl; [reflexivity|].
  now rewrite N.eqb_refl.
Qed.

(** A type that is a listed one, letter case apart, is not empty. *)
Lemma listed_type_truthy :
  forall type, In (Js.toLowerCase type) FileUpload.mimeTypes -> Js.truthy type = true.
Proof.
  intros [|c t] H; [|reflexivity].
  vm_compute in H. repeat (destruct H as [H|H]; [discriminate H|]). contradiction.
Qed.

(** X15: a file whose MIME type is, in whatever letter case, one of
    the six keys of [ACCEPTED_TYPES] and whose size is at most 50 MiB
    passes the dropzone's sorting when it is alone, whatever its name
    is; file-selector reads it as it is, unless its name is .DS_Store
    or Thumbs.db, which it leaves out; so, dropped alone under another
    name, the file is accepted, and on an idle component it is
    uploaded. *)
Theorem listed_type_accepted :
  forall table net s (name type : Js.jsstring) (size : Z),
    In (Js.toLowerCase type) FileUpload.mimeTypes ->
    size <= FileUpload.MAX_BYTES ->
    let f := {| Js.f_name := name; Js.f_type := type; Js.f_size := size |} in
    Dropzone.setFiles (FileUpload.options s) [f] = [f]
    /\ Dropzone.acceptedFiles table (FileUpload.options s) [f]
       = (if FileSelector.ignored f then [] else [f])
    /\ (FileUpload.st_uploading s = false ->
        FileUpload.requests (snd (FileUpload.drop table net [f] s))
        = if FileSelector.ignored f then [] else [Client.uploadDocument f]).
Proof.
  intros table net s name type size Htype Hsize f.
  assert (Hp : FileUpload.passes f = true).
  { unfold FileUpload.passes. apply andb_true_iff. split.
    - apply orb_true_iff. left. apply orb_true_iff. right.
      unfold FileUpload.hasListedType. apply existsb_exists.
      exists (Js.toLowerCase type). split; [exact Htype|]. apply jsstring_eqb_refl.
    - apply Z.leb_le. exact Hsize. }
  assert (Hread : FileSelector.withMimeType table f = f).
  { apply withMimeType_typed. exact (listed_type_truthy type Htype). }
  assert (Hacc : Dropzone.acceptedFiles table (FileUpload.options s) [f]
                 = (if FileSelector.ignored f then [] else [f])).
  { rewrite acceptedFiles_single, Hread, Hp.
    destruct (FileSelector.ignored f); reflexivity. }
  split; [|split; [exact Hacc|]].
  { rewrite setFiles_eq. cbn [filter]. rewrite Hp. reflexivity. }
  intro Hidle. unfold FileUpload.drop.
  change (Dropzone.disabled (FileUpload.options s)) with (FileUpload.st_uploading s).
  rewrite Hidle, Hacc.
  destruct (FileSelector.ignored f); [reflexivity|].
  unfold FileUpload.onDrop.
  destruct (net (Client.uploadDocument f)); reflexivity.
Qed.

Lemma listed_type_accepted_witness :
  Dropzone.acceptedFiles some_mime_types (FileUpload.options FileUpload.initial)
    [ {| Js.f_name := Js.lit "report.final"; Js.f_type := Js.lit "Application/PDF";
         Js.f_size := 1024 |} ]
  = [ {| Js.f_name := Js.lit "report.final"; Js.f_type := Js.lit "Application/PDF";
         Js.f_size := 1024 |} ].
Proof.
  refine (proj1 (proj2 (listed_type_accepted some_mime_types refusing FileUpload.initial
                          (Js.lit "report.final") (Js.lit "Application/PDF") 1024 _ _))).
  - vm_compute. auto.
  - vm_compute. discriminate.
Defined.

(** A thumbnail cache is left out whatever type it comes with. *)
Example typed_ds_store_left_out :
  Dropzone.acceptedFiles some_mime_types (FileUpload.options FileUpload.initial)
    [ {| Js.f_name := Js.lit ".DS_Store"; Js.f_type := Js.lit "application/pdf";
         Js.f_size := 1024 |} ] = [].
Proof. vm_compute. reflexivity. Qed.
